(** * Conversation state machine of the medical scheduling assistant

    A shallow embedding of the chat page component (the file with
    [detectIntent], [detectAppointmentType], [normalizeDateFromInput],
    [parseSlotSelection], [handleBookingFlow], [handleRescheduleFlow],
    [handleCancelFlow] and [handleSubmit]) and the properties of its
    dialogue logic.

    Conventions of the embedding.
    - A JavaScript string is a [string]: one [ascii] per UTF-16 code unit,
      for code units in the range U+0000..U+00FF.  [toLowerCase] and [trim]
      are exact on that range.
    - [Number] of a digit string is an exact natural number ([N]).  The
      source compares it with an array length, which is below 2^32, and a
      double is exact below 2^53, so rounding never changes a comparison.
    - A handler is a function from the state captured by the render
      closure and the user's text to the list of effects it performs, in
      program order.  A remote call is resolved by an oracle ([Remote]);
      [None] means the promise rejects.
    - The agent's utterances are constructors of [AgentMessage], one per
      string literal or template of the source. *)

From Stdlib Require Import String Ascii List Bool NArith ZArith Lia.
From Stdlib Require Import DecimalString DecimalN DecimalPos.
Import ListNotations.
Open Scope string_scope.

(** ** JavaScript string primitives used by the page *)

Module JS.

Definition code (c : ascii) : N := N_of_ascii c.

Definition between (lo hi : N) (c : ascii) : bool :=
  ((lo <=? code c) && (code c <=? hi))%N.

(** [\d] *)
Definition isDigit (c : ascii) : bool := between 48 57 c.

(** [\w] : [A-Za-z0-9_] *)
Definition isWordChar (c : ascii) : bool :=
  isDigit c || between 65 90 c || between 97 122 c || (code c =? 95)%N.

(** White space and line terminators stripped by [String.prototype.trim]:
    TAB, LF, VT, FF, CR, SPACE and NO-BREAK SPACE. *)
Definition isWhiteSpace (c : ascii) : bool :=
  between 9 13 c || (code c =? 32)%N || (code c =? 160)%N.

(** Letters with a lower-case partner: A-Z, and in the Latin-1 block
    U+00C0..U+00DE without the multiplication sign U+00D7. *)
Definition isUpper (c : ascii) : bool :=
  between 65 90 c || between 192 214 c || between 216 222 c.

Definition toLowerUnit (c : ascii) : ascii :=
  if isUpper c then ascii_of_N (code c + 32) else c.

Fixpoint toLowerCase (s : string) : string :=
  match s with
  | EmptyString => EmptyString
  | String c r => String (toLowerUnit c) (toLowerCase r)
  end.

Fixpoint trimStart (s : string) : string :=
  match s with
  | EmptyString => EmptyString
  | String c r => if isWhiteSpace c then trimStart r else s
  end.

Fixpoint trimEnd (s : string) : string :=
  match s with
  | EmptyString => EmptyString
  | String c r =>
      match trimEnd r with
      | EmptyString => if isWhiteSpace c then EmptyString else String c EmptyString
      | r' => String c r'
      end
  end.

Definition trim (s : string) : string := trimEnd (trimStart s).

(** [s.includes(pat)] *)
Fixpoint includes (s pat : string) : bool :=
  prefix pat s ||
  match s with
  | EmptyString => false
  | String _ r => includes r pat
  end.

(** [s.padStart(n, "0")] *)
Definition padStart0 (n : nat) (s : string) : string :=
  string_of_list_ascii (repeat "0"%char (n - String.length s)) ++ s.

Fixpoint allDigits (s : string) : bool :=
  match s with
  | EmptyString => true
  | String c r => isDigit c && allDigits r
  end.

Definition digitValue (c : ascii) : N := (code c - 48)%N.

Fixpoint NumberFrom (acc : N) (s : string) : N :=
  match s with
  | EmptyString => acc
  | String c r => NumberFrom (10 * acc + digitValue c) r
  end.

(** [Number(s)] for a string of decimal digits. *)
Definition Number (s : string) : N := NumberFrom 0 s.

(** [String(n)] : the decimal numeral of a natural number. *)
Definition decimal (n : N) : string := NilEmpty.string_of_uint (N.to_uint n).

(** JavaScript truthiness of a [string | null]. *)
Definition truthy (o : option string) : bool :=
  match o with
  | Some (String _ _) => true
  | _ => false
  end.

Definition isNull {A} (o : option A) : bool :=
  match o with Some _ => false | None => true end.

End JS.

(** ** The regular expressions of the page *)

Module Regex.
Import JS.

Definition isWordOpt (o : option ascii) : bool :=
  match o with Some c => isWordChar c | None => false end.

(** [\b] between the code unit before the position and the one after. *)
Definition wordBoundary (before after : option ascii) : bool :=
  xorb (isWordOpt before) (isWordOpt after).

Definition head (s : string) : option ascii :=
  match s with EmptyString => None | String c _ => Some c end.

(** [/^\d+$/] *)
Definition numericMatch (s : string) : option string :=
  match s with
  | EmptyString => None
  | String _ _ => if allDigits s then Some s else None
  end.

(** [\d{4}-\d{2}-\d{2}\b] anchored at the head of [s]. *)
Definition isoAt (s : string) : option string :=
  match s with
  | String y1 (String y2 (String y3 (String y4 (String d1
      (String m1 (String m2 (String d2 (String a1 (String a2 rest))))))))) =>
      if isDigit y1 && isDigit y2 && isDigit y3 && isDigit y4
         && (d1 =? "-")%char && isDigit m1 && isDigit m2
         && (d2 =? "-")%char && isDigit a1 && isDigit a2
         && wordBoundary (Some a2) (head rest)
      then Some (String y1 (String y2 (String y3 (String y4 (String d1
             (String m1 (String m2 (String d2 (String a1 (String a2
               EmptyString))))))))))
      else None
  | _ => None
  end.

(** Leftmost match of [/\b\d{4}-\d{2}-\d{2}\b/]; [before] is the code
    unit preceding [s] in the input. *)
Fixpoint isoScan (before : option ascii) (s : string) : option string :=
  match s with
  | EmptyString => None
  | String c r =>
      match (if wordBoundary before (Some c) then isoAt s else None) with
      | Some m => Some m
      | None => isoScan (Some c) r
      end
  end.

Definition isoMatch (input : string) : option string := isoScan None input.

(** [:[0-5]\d\b] anchored at the head of [s]. *)
Definition minutesAt (s : string) : option string :=
  match s with
  | String c (String m1 (String m2 rest)) =>
      if (c =? ":")%char && between 48 53 m1 && isDigit m2
         && wordBoundary (Some m2) (head rest)
      then Some (String c (String m1 (String m2 EmptyString)))
      else None
  | _ => None
  end.

Definition orElse {A} (a b : option A) : option A :=
  match a with Some _ => a | None => b end.

(** [([01]?\d|2[0-3]):[0-5]\d\b] anchored at the head of [s].  The
    engine tries, in this order: [[01]] followed by a digit, a single
    digit (the optional [[01]] left out), then [2[0-3]]. *)
Definition timeAt (s : string) : option string :=
  orElse
    (match s with
     | String h1 (String h2 r) =>
         if between 48 49 h1 && isDigit h2
         then option_map (fun t => String h1 (String h2 t)) (minutesAt r)
         else None
     | _ => None
     end)
    (orElse
       (match s with
        | String h r =>
            if isDigit h
            then option_map (fun t => String h t) (minutesAt r)
            else None
        | _ => None
        end)
       (match s with
        | String h1 (String h2 r) =>
            if (h1 =? "2")%char && between 48 51 h2
            then option_map (fun t => String h1 (String h2 t)) (minutesAt r)
            else None
        | _ => None
        end)).

(** Leftmost match of [/\b([01]?\d|2[0-3]):[0-5]\d\b/]. *)
Fixpoint timeScan (before : option ascii) (s : string) : option string :=
  match s with
  | EmptyString => None
  | String c r =>
      match (if wordBoundary before (Some c) then timeAt s else None) with
      | Some m => Some m
      | None => timeScan (Some c) r
      end
  end.

Definition timeMatch (input : string) : option string := timeScan None input.

End Regex.

(** ** The page component *)

Module Page.
Import JS Regex.

Inductive AppointmentTypeKey := consultation | followup | physical | specialist.

Record AppointmentTypeConfig := {
  key : AppointmentTypeKey;
  label : string;
  durationMinutes : N
}.

Record AvailabilitySlot := {
  start_time : string;
  end_time : string;
  available : bool
}.

Inductive Intent := book | reschedule | cancel.

Inductive ConversationStep :=
| idle | askIntent | askType | askDate | fetchingSlots | selectSlot
| askName | askEmail | askPhone | askReason | confirmingBooking
| bookingComplete
| askBookingIdForReschedule | askNewDateForReschedule
| askNewTimeForReschedule | rescheduling | rescheduleComplete
| askBookingIdForCancel | askReasonForCancel | cancelling | cancelComplete.

Record ConversationState := {
  intent : option Intent;
  step : ConversationStep;
  appointmentType : option AppointmentTypeConfig;
  date : option string;
  slots : list AvailabilitySlot;
  selectedSlot : option AvailabilitySlot;
  patientName : option string;
  patientEmail : option string;
  patientPhone : option string;
  reason : option string;
  bookingId : option string
}.

(** Object spread with one field replaced: [{ ...s, field: v }]. *)
Definition set_intent v s :=
  {| intent := v; step := step s; appointmentType := appointmentType s;
     date := date s; slots := slots s; selectedSlot := selectedSlot s;
     patientName := patientName s; patientEmail := patientEmail s;
     patientPhone := patientPhone s; reason := reason s;
     bookingId := bookingId s |}.
Definition set_step v s :=
  {| intent := intent s; step := v; appointmentType := appointmentType s;
     date := date s; slots := slots s; selectedSlot := selectedSlot s;
     patientName := patientName s; patientEmail := patientEmail s;
     patientPhone := patientPhone s; reason := reason s;
     bookingId := bookingId s |}.
Definition set_appointmentType v s :=
  {| intent := intent s; step := step s; appointmentType := v;
     date := date s; slots := slots s; selectedSlot := selectedSlot s;
     patientName := patientName s; patientEmail := patientEmail s;
     patientPhone := patientPhone s; reason := reason s;
     bookingId := bookingId s |}.
Definition set_date v s :=
  {| intent := intent s; step := step s; appointmentType := appointmentType s;
     date := v; slots := slots s; selectedSlot := selectedSlot s;
     patientName := patientName s; patientEmail := patientEmail s;
     patientPhone := patientPhone s; reason := reason s;
     bookingId := bookingId s |}.
Definition set_slots v s :=
  {| intent := intent s; step := step s; appointmentType := appointmentType s;
     date := date s; slots := v; selectedSlot := selectedSlot s;
     patientName := patientName s; patientEmail := patientEmail s;
     patientPhone := patientPhone s; reason := reason s;
     bookingId := bookingId s |}.
Definition set_selectedSlot v s :=
  {| intent := intent s; step := step s; appointmentType := appointmentType s;
     date := date s; slots := slots s; selectedSlot := v;
     patientName := patientName s; patientEmail := patientEmail s;
     patientPhone := patientPhone s; reason := reason s;
     bookingId := bookingId s |}.
Definition set_patientName v s :=
  {| intent := intent s; step := step s; appointmentType := appointmentType s;
     date := date s; slots := slots s; selectedSlot := selectedSlot s;
     patientName := v; patientEmail := patientEmail s;
     patientPhone := patientPhone s; reason := reason s;
     bookingId := bookingId s |}.
Definition set_patientEmail v s :=
  {| intent := intent s; step := step s; appointmentType := appointmentType s;
     date := date s; slots := slots s; selectedSlot := selectedSlot s;
     patientName := patientName s; patientEmail := v;
     patientPhone := patientPhone s; reason := reason s;
     bookingId := bookingId s |}.
Definition set_patientPhone v s :=
  {| intent := intent s; step := step s; appointmentType := appointmentType s;
     date := date s; slots := slots s; selectedSlot := selectedSlot s;
     patientName := patientName s; patientEmail := patientEmail s;
     patientPhone := v; reason := reason s;
     bookingId := bookingId s |}.
Definition set_reason v s :=
  {| intent := intent s; step := step s; appointmentType := appointmentType s;
     date := date s; slots := slots s; selectedSlot := selectedSlot s;
     patientName := patientName s; patientEmail := patientEmail s;
     patientPhone := patientPhone s; reason := v;
     bookingId := bookingId s |}.
Definition set_bookingId v s :=
  {| intent := intent s; step := step s; appointmentType := appointmentType s;
     date := date s; slots := slots s; selectedSlot := selectedSlot s;
     patientName := patientName s; patientEmail := patientEmail s;
     patientPhone := patientPhone s; reason := reason s;
     bookingId := v |}.

Definition APPOINTMENT_TYPES : list AppointmentTypeConfig :=
  [ {| key := consultation; label := "General Consultation"; durationMinutes := 30 |};
    {| key := followup; label := "Follow-up"; durationMinutes := 15 |};
    {| key := physical; label := "Physical Exam"; durationMinutes := 45 |};
    {| key := specialist; label := "Specialist Consultation"; durationMinutes := 60 |} ].

Definition createInitialState : ConversationState :=
  {| intent := None; step := askIntent; appointmentType := None;
     date := None; slots := []; selectedSlot := None;
     patientName := None; patientEmail := None; patientPhone := None;
     reason := None; bookingId := None |}.

Definition detectIntent (input : string) : Intent :=
  let text := toLowerCase input in
  if includes text "reschedul" then reschedule
  else if includes text "cancel" then cancel
  else book.

Definition key_eqb (a b : AppointmentTypeKey) : bool :=
  match a, b with
  | consultation, consultation | followup, followup
  | physical, physical | specialist, specialist => true
  | _, _ => false
  end.

(** [APPOINTMENT_TYPES.find((t) => t.key === k) ?? null] *)
Definition findType (k : AppointmentTypeKey) : option AppointmentTypeConfig :=
  find (fun t => key_eqb (key t) k) APPOINTMENT_TYPES.

Definition detectAppointmentType (input : string) : option AppointmentTypeConfig :=
  let text := toLowerCase input in
  if includes text "follow" || includes text "follow-up" then findType followup
  else if includes text "physical" then findType physical
  else if includes text "specialist" then findType specialist
  else if includes text "consult" || includes text "general"
          || includes text "checkup" || includes text "check-up"
  then findType consultation
  else None.

(** The clock read by [new Date()]: the two strings that
    [toISOString().slice(0, 10)] yields for today and for the day after. *)
Record Clock := { todayISO : string; tomorrowISO : string }.

Definition normalizeDateFromInput (clock : Clock) (input : string) : option string :=
  match isoMatch input with
  | Some m => Some m
  | None =>
      let text := toLowerCase input in
      if includes text "today" then Some (todayISO clock)
      else if includes text "tomorrow" then Some (tomorrowISO clock)
      else None
  end.

(** [slots.find((slot) => slot.start_time === time && slot.available) ?? null] *)
Definition findByTime (time : string) (slots : list AvailabilitySlot)
  : option AvailabilitySlot :=
  find (fun slot => (start_time slot =? time) && available slot) slots.

Definition parseSlotSelection (input : string) (slots : list AvailabilitySlot)
  : option AvailabilitySlot :=
  match slots with
  | [] => None
  | _ :: _ =>
      let byIndex :=
        match numericMatch (trim input) with
        | Some digits =>
            let index := (Z.of_N (Number digits) - 1)%Z in
            if ((0 <=? index) && (index <? Z.of_nat (List.length slots)))%Z
            then nth_error slots (Z.to_nat index)
            else None
        | None => None
        end in
      match byIndex with
      | Some slot => Some slot
      | None =>
          match timeMatch input with
          | Some m => findByTime (padStart0 5 m) slots
          | None => None
          end
      end
  end.

(** *** Remote scheduling client *)

Record BookOptions := {
  bo_appointmentType : AppointmentTypeConfig;
  bo_date : string;
  bo_slot : AvailabilitySlot;
  bo_name : string;
  bo_email : string;
  bo_phone : string;
  bo_reason : option string
}.

Record BookResult := {
  booking_id : string;
  status : string;
  confirmation_code : string
}.

Record RescheduleOptions := {
  ro_bookingId : string;
  ro_date : string;
  ro_startTime : string
}.

Record RescheduleResult := {
  rr_booking_id : string;
  rr_status : string;
  previous_booking_id : string
}.

Record CancelOptions := {
  co_bookingId : string;
  co_reason : option string
}.

Record CancelResult := {
  cr_booking_id : string;
  cr_status : string
}.

(** What the outside world answers during one turn.  [None] is a rejected
    promise (non-success response or transport failure). *)
Record Remote := {
  clock : Clock;
  fetchAvailability : string -> AppointmentTypeConfig -> option (list AvailabilitySlot);
  bookAppointment : BookOptions -> option BookResult;
  rescheduleAppointment : RescheduleOptions -> option RescheduleResult;
  cancelAppointment : CancelOptions -> option CancelResult
}.

(** *** Effects of a handler *)

(** One constructor per agent utterance of the source. *)
Inductive AgentMessage :=
| sayTypeChosen (lowerLabel : string)   (* Great, a <label>. On which date ...? *)
| sayAskType                            (* What type of appointment would you like? ... *)
| sayBadDate                            (* I couldn't understand that date. ... *)
| sayMissingType                        (* I'm missing the appointment type ... *)
| sayNoSlots                            (* I'm sorry, there are no available slots for that date. Try another date. *)
| saySlotOptions (date : string) (options : list AvailabilitySlot)
                                        (* Here are some available times on <date>: ... *)
| sayFetchFailed                        (* Something went wrong while fetching availability. ... *)
| saySlotNotMatched                     (* I couldn't match that to one of the suggested times. ... *)
| sayHoldSlot (slot : AvailabilitySlot) (date : option string)
                                        (* Perfect, I'll hold <start>-<end> on <date>. What is your full name? *)
| sayAskEmail                           (* Thanks. What is the best email to send confirmation? *)
| sayAskPhone                           (* Got it. And what phone number ...? *)
| sayAskReason                          (* Lastly, what's the reason for your visit? ... *)
| sayBookingMissingInfo                 (* I'm missing some information to complete your booking. Let's start over. *)
| sayBookingConfirmed (bookingId confirmationCode : string)
                                        (* You're all set! Your appointment is confirmed. ... *)
| sayBookingFailed                      (* Something went wrong while booking your appointment. Please try again or adjust your details. *)
| sayNeedRescheduleId                   (* Please provide the booking ID you'd like to reschedule. *)
| sayAskNewDate                         (* Got it. What new date would you like? ... *)
| sayAskNewTime                         (* What new time would you prefer? ... *)
| sayBadTime                            (* I couldn't read that time. ... *)
| sayRescheduleMissingInfo              (* I'm missing some information to reschedule this appointment. Let's start over. *)
| sayRescheduled (newId previousId : string) (date : option string) (startTime : string)
                                        (* Your appointment has been rescheduled. ... *)
| sayRescheduleFailed                   (* Something went wrong while rescheduling your appointment. Please try again. *)
| sayNeedCancelId                       (* Please provide the booking ID you'd like to cancel. *)
| sayAskCancelReason                    (* I can include an optional note ... (You can say skip to leave this blank.) *)
| sayCancelMissingId                    (* I'm missing the booking ID for this cancellation. Let's start over. *)
| sayCancelled (bookingId : string)     (* Your appointment has been cancelled. ... *)
| sayCancelFailed                       (* Something went wrong while cancelling your appointment. Please try again. *)
| sayStartReschedule                    (* Sure, let's reschedule. What is your booking ID? *)
| sayStartCancel                        (* Okay, I can help with that. What is your booking ID? *)
| sayGreeting.                          (* Hi, I'm your scheduling assistant. ... What would you like to do? *)

(** An awaited remote call, with its arguments and its outcome. *)
Inductive RemoteCall :=
| availabilityCall (date : string) (ty : AppointmentTypeConfig)
                   (r : option (list AvailabilitySlot))
| bookCall (o : BookOptions) (r : option BookResult)
| rescheduleCall (o : RescheduleOptions) (r : option RescheduleResult)
| cancelCall (o : CancelOptions) (r : option CancelResult).

Inductive Effect :=
| setState (s : ConversationState)
| appendUserMessage (text : string)
| appendAgentMessage (m : AgentMessage)
| setInput (v : string)
| setIsBusy (b : bool)
| await (c : RemoteCall)
| consoleError.

(** Narrowing of a [string | null] by a truthiness test. *)
Definition nonEmpty (o : option string) : option string :=
  match o with
  | Some (String _ _) => o
  | _ => None
  end.

Definition handleBookingFlow (remote : Remote) (state : ConversationState)
           (userText : string) : list Effect :=
  let currentState :=
    if isNull (intent state) then set_intent (Some book) state else state in
  if isNull (appointmentType currentState) then
    match detectAppointmentType userText with
    | Some inferredType =>
        let currentState :=
          set_step askDate (set_appointmentType (Some inferredType) currentState) in
        [ setState currentState;
          appendAgentMessage (sayTypeChosen (toLowerCase (label inferredType))) ]
    | None =>
        let currentState := set_step askType currentState in
        [ setState currentState; appendAgentMessage sayAskType ]
    end
  else if negb (truthy (date currentState)) then
    match nonEmpty (normalizeDateFromInput (clock remote) userText) with
    | None => [ appendAgentMessage sayBadDate ]
    | Some date =>
        let currentState :=
          set_step fetchingSlots (set_date (Some date) currentState) in
        setState currentState ::
        match appointmentType currentState with
        | None =>
            [ appendAgentMessage sayMissingType;
              setState (set_step askType currentState) ]
        | Some appointmentType =>
            setIsBusy true ::
            match fetchAvailability remote date appointmentType with
            | Some slots =>
                await (availabilityCall date appointmentType (Some slots)) ::
                let available := firstn 5 (filter available slots) in
                match available with
                | [] =>
                    [ appendAgentMessage sayNoSlots;
                      setState (set_step askDate (set_slots [] currentState));
                      setIsBusy false ]
                | _ :: _ =>
                    [ setState (set_step selectSlot (set_slots available currentState));
                      appendAgentMessage (saySlotOptions date available);
                      setIsBusy false ]
                end
            | None =>
                [ await (availabilityCall date appointmentType None);
                  consoleError;
                  appendAgentMessage sayFetchFailed;
                  setState (set_step askDate currentState);
                  setIsBusy false ]
            end
        end
    end
  else if isNull (selectedSlot currentState)
          && negb (Nat.eqb (List.length (slots currentState)) 0) then
    match parseSlotSelection userText (slots currentState) with
    | None => [ appendAgentMessage saySlotNotMatched ]
    | Some slot =>
        let currentState :=
          set_step askName (set_selectedSlot (Some slot) currentState) in
        [ setState currentState;
          appendAgentMessage (sayHoldSlot slot (date currentState)) ]
    end
  else if negb (truthy (patientName currentState)) then
    let currentState :=
      set_step askEmail (set_patientName (Some (trim userText)) currentState) in
    [ setState currentState; appendAgentMessage sayAskEmail ]
  else if negb (truthy (patientEmail currentState)) then
    let currentState :=
      set_step askPhone (set_patientEmail (Some (trim userText)) currentState) in
    [ setState currentState; appendAgentMessage sayAskPhone ]
  else if negb (truthy (patientPhone currentState)) then
    let currentState :=
      set_step askReason (set_patientPhone (Some (trim userText)) currentState) in
    [ setState currentState; appendAgentMessage sayAskReason ]
  else if negb (truthy (reason currentState)) then
    let currentState :=
      set_step confirmingBooking (set_reason (Some (trim userText)) currentState) in
    setState currentState ::
    match appointmentType currentState, nonEmpty (date currentState),
          selectedSlot currentState, nonEmpty (patientName currentState),
          nonEmpty (patientEmail currentState),
          nonEmpty (patientPhone currentState) with
    | Some ty, Some d, Some slot, Some name, Some email, Some phone =>
        let options :=
          {| bo_appointmentType := ty; bo_date := d; bo_slot := slot;
             bo_name := name; bo_email := email; bo_phone := phone;
             bo_reason := reason currentState |} in
        setIsBusy true ::
        match bookAppointment remote options with
        | Some result =>
            [ await (bookCall options (Some result));
              setState (set_step bookingComplete
                          (set_bookingId (Some (booking_id result)) currentState));
              appendAgentMessage
                (sayBookingConfirmed (booking_id result) (confirmation_code result));
              setIsBusy false ]
        | None =>
            [ await (bookCall options None);
              consoleError;
              appendAgentMessage sayBookingFailed;
              setState (set_step askDate currentState);
              setIsBusy false ]
        end
    | _, _, _, _, _, _ =>
        [ appendAgentMessage sayBookingMissingInfo;
          setState createInitialState ]
    end
  else [].

Definition step_eqb (a b : ConversationStep) : bool :=
  match a, b with
  | idle, idle | askIntent, askIntent | askType, askType | askDate, askDate
  | fetchingSlots, fetchingSlots | selectSlot, selectSlot | askName, askName
  | askEmail, askEmail | askPhone, askPhone | askReason, askReason
  | confirmingBooking, confirmingBooking | bookingComplete, bookingComplete
  | askBookingIdForReschedule, askBookingIdForReschedule
  | askNewDateForReschedule, askNewDateForReschedule
  | askNewTimeForReschedule, askNewTimeForReschedule
  | rescheduling, rescheduling | rescheduleComplete, rescheduleComplete
  | askBookingIdForCancel, askBookingIdForCancel
  | askReasonForCancel, askReasonForCancel
  | cancelling, cancelling | cancelComplete, cancelComplete => true
  | _, _ => false
  end.

(** The source tests [!bookingId || !date] twice in a row before the call,
    with the same outcome; the two tests are one [match] here. *)
Definition handleRescheduleFlow (remote : Remote) (state : ConversationState)
           (userText : string) : list Effect :=
  let currentState := state in
  if negb (truthy (bookingId currentState))
     && step_eqb (step currentState) askBookingIdForReschedule then
    match nonEmpty (Some (trim userText)) with
    | None => [ appendAgentMessage sayNeedRescheduleId ]
    | Some id =>
        let currentState :=
          set_step askNewDateForReschedule (set_bookingId (Some id) currentState) in
        [ setState currentState; appendAgentMessage sayAskNewDate ]
    end
  else if negb (truthy (date currentState))
          && step_eqb (step currentState) askNewDateForReschedule then
    match nonEmpty (normalizeDateFromInput (clock remote) userText) with
    | None => [ appendAgentMessage sayBadDate ]
    | Some date =>
        let currentState :=
          set_step askNewTimeForReschedule (set_date (Some date) currentState) in
        [ setState currentState; appendAgentMessage sayAskNewTime ]
    end
  else if truthy (date currentState)
          && step_eqb (step currentState) askNewTimeForReschedule then
    match timeMatch userText with
    | None => [ appendAgentMessage sayBadTime ]
    | Some m =>
        let startTime := padStart0 5 m in
        match nonEmpty (bookingId currentState), nonEmpty (date currentState) with
        | Some bookingId, Some date =>
            let currentState := set_step rescheduling currentState in
            let options :=
              {| ro_bookingId := bookingId; ro_date := date;
                 ro_startTime := startTime |} in
            setState currentState ::
            setIsBusy true ::
            match rescheduleAppointment remote options with
            | Some result =>
                [ await (rescheduleCall options (Some result));
                  setState (set_step rescheduleComplete
                              (set_bookingId (Some (rr_booking_id result)) currentState));
                  appendAgentMessage
                    (sayRescheduled (rr_booking_id result) (previous_booking_id result)
                                    (Page.date currentState) startTime);
                  setIsBusy false ]
            | None =>
                [ await (rescheduleCall options None);
                  consoleError;
                  appendAgentMessage sayRescheduleFailed;
                  setState createInitialState;
                  setIsBusy false ]
            end
        | _, _ =>
            [ appendAgentMessage sayRescheduleMissingInfo;
              setState createInitialState ]
        end
    end
  else [].

Definition handleCancelFlow (remote : Remote) (state : ConversationState)
           (userText : string) : list Effect :=
  let currentState := state in
  if negb (truthy (bookingId currentState))
     && step_eqb (step currentState) askBookingIdForCancel then
    match nonEmpty (Some (trim userText)) with
    | None => [ appendAgentMessage sayNeedCancelId ]
    | Some id =>
        let currentState :=
          set_step askReasonForCancel (set_bookingId (Some id) currentState) in
        [ setState currentState; appendAgentMessage sayAskCancelReason ]
    end
  else if step_eqb (step currentState) askReasonForCancel then
    let reason :=
      if toLowerCase (trim userText) =? "skip" then None
      else Some (trim userText) in
    let currentState := set_step cancelling (set_reason reason currentState) in
    setState currentState ::
    match nonEmpty (bookingId currentState) with
    | None =>
        [ appendAgentMessage sayCancelMissingId;
          setState createInitialState ]
    | Some bookingId =>
        let options := {| co_bookingId := bookingId; co_reason := reason |} in
        setIsBusy true ::
        match cancelAppointment remote options with
        | Some result =>
            [ await (cancelCall options (Some result));
              setState (set_step cancelComplete
                          (set_bookingId (Some (cr_booking_id result)) currentState));
              appendAgentMessage (sayCancelled (cr_booking_id result));
              setIsBusy false ]
        | None =>
            [ await (cancelCall options None);
              consoleError;
              appendAgentMessage sayCancelFailed;
              setState createInitialState;
              setIsBusy false ]
        end
    end
  else [].

Definition intent_is (i : Intent) (o : option Intent) : bool :=
  match o, i with
  | Some book, book | Some reschedule, reschedule | Some cancel, cancel => true
  | _, _ => false
  end.

Definition handleSubmit (remote : Remote) (state : ConversationState)
           (isBusy : bool) (input : string) : list Effect :=
  let trimmed := trim input in
  if negb (truthy (Some trimmed)) || isBusy then []
  else
    appendUserMessage trimmed ::
    setInput EmptyString ::
    if step_eqb (step state) idle || step_eqb (step state) askIntent then
      let intent := detectIntent trimmed in
      let nextState := set_intent (Some intent) createInitialState in
      match intent with
      | book => setState nextState :: handleBookingFlow remote state trimmed
      | reschedule =>
          [ setState (set_step askBookingIdForReschedule nextState);
            appendAgentMessage sayStartReschedule ]
      | cancel =>
          [ setState (set_step askBookingIdForCancel nextState);
            appendAgentMessage sayStartCancel ]
      end
    else if intent_is book (intent state)
            || step_eqb (step state) askType || step_eqb (step state) askDate then
      handleBookingFlow remote state trimmed
    else if intent_is reschedule (intent state)
            || step_eqb (step state) askBookingIdForReschedule
            || step_eqb (step state) askNewDateForReschedule
            || step_eqb (step state) askNewTimeForReschedule then
      handleRescheduleFlow remote state trimmed
    else if intent_is cancel (intent state)
            || step_eqb (step state) askBookingIdForCancel
            || step_eqb (step state) askReasonForCancel then
      handleCancelFlow remote state trimmed
    else handleBookingFlow remote state trimmed.

(** *** The component between turns *)

Inductive Message :=
| agentSays (m : AgentMessage)
| userSays (text : string).

Record Component := {
  state : ConversationState;
  isBusy : bool;
  messages : list Message
}.

(** React applies the state updates of a handler in order; the last
    value given to a setter is the one the next render sees. *)
Definition applyEffect (c : Component) (e : Effect) : Component :=
  match e with
  | setState s => {| state := s; isBusy := isBusy c; messages := messages c |}
  | setIsBusy b => {| state := state c; isBusy := b; messages := messages c |}
  | appendUserMessage t =>
      {| state := state c; isBusy := isBusy c;
         messages := messages c ++ [userSays t] |}
  | appendAgentMessage m =>
      {| state := state c; isBusy := isBusy c;
         messages := messages c ++ [agentSays m] |}
  | setInput _ | await _ | consoleError => c
  end.

Definition applyEffects (c : Component) (es : list Effect) : Component :=
  fold_left applyEffect es c.

(** One user turn: the text submitted and what the backend answers
    while that turn is handled. *)
Record Turn := { remote : Remote; input : string }.

(** The effects of submitting [t] to the component [c]. *)
Definition effectsOf (c : Component) (t : Turn) : list Effect :=
  handleSubmit (remote t) (state c) (isBusy c) (input t).

Definition submit (c : Component) (t : Turn) : Component :=
  applyEffects c (effectsOf c t).

(** [useState] initial values: the greeting, not busy, the empty state. *)
Definition initialComponent : Component :=
  {| state := createInitialState; isBusy := false;
     messages := [agentSays sayGreeting] |}.

(** The component after a sequence of turns from the start of the
    conversation. *)
Definition conversation (ts : list Turn) : Component :=
  fold_left submit ts initialComponent.

(** *** Notions used to state the properties *)

(** [c] is one of the code units of [s]. *)
Fixpoint occurs (c : ascii) (s : string) : Prop :=
  match s with
  | EmptyString => False
  | String x r => x = c \/ occurs c r
  end.

(** [text] contains [pat] up to letter case. *)
Definition containsAnyCase (pat text : string) : Prop :=
  exists pre mid post, text = pre ++ mid ++ post /\ toLowerCase mid = pat.

(** The synonyms by which a turn mentions an appointment type. *)
Definition synonyms (k : AppointmentTypeKey) : list string :=
  match k with
  | followup => ["follow"; "follow-up"]
  | physical => ["physical"]
  | specialist => ["specialist"]
  | consultation => ["consult"; "general"; "checkup"; "check-up"]
  end.

Definition mentions (k : AppointmentTypeKey) (text : string) : Prop :=
  exists syn, In syn (synonyms k) /\ containsAnyCase syn text.

(** A selected slot comes from the slot list held in the state, and is
    only present once a date is. *)
Definition slotInvariant (s : ConversationState) : Prop :=
  forall slot, selectedSlot s = Some slot ->
    In slot (slots s) /\ truthy (date s) = true.

(** The slots kept from an availability answer: the available ones, at
    most five, in fetch order. *)
Definition retained (fetched : list AvailabilitySlot) : list AvailabilitySlot :=
  firstn 5 (filter available fetched).

(** The availability query among the effects of a turn, with its answer
    ([None] when the request failed). *)
Fixpoint queryOf (es : list Effect) : option RemoteCall :=
  match es with
  | [] => None
  | await (availabilityCall d ty answer) :: _ =>
      Some (availabilityCall d ty answer)
  | _ :: rest => queryOf rest
  end.

(** The most recent availability query after the turns [ts] are played
    from the component [c], given that [last] was the most recent one
    before them. *)
Fixpoint lastQueryFrom (c : Component) (last : option RemoteCall)
         (ts : list Turn) : option RemoteCall :=
  match ts with
  | [] => last
  | t :: rest =>
      lastQueryFrom (submit c t)
                    (match queryOf (effectsOf c t) with
                     | Some q => Some q
                     | None => last
                     end)
                    rest
  end.

(** The most recent availability query of a conversation. *)
Definition lastQuery (ts : list Turn) : option RemoteCall :=
  lastQueryFrom initialComponent None ts.

(** The slot list held in the state is what was retained from the most
    recent availability query [last], which was answered, and was made
    for the date and the appointment type held in the state; without a
    date the list is empty. *)
Definition slotsFromLastQuery (last : option RemoteCall)
           (s : ConversationState) : Prop :=
  (truthy (date s) = false -> slots s = []) /\
  (slots s <> [] ->
   exists d ty fetched,
     last = Some (availabilityCall d ty (Some fetched)) /\
     date s = Some d /\ appointmentType s = Some ty /\
     slots s = retained fetched).

(** [n] is a 1-based ordinal of [slots]. *)
Definition ordinalInRange (slots : list AvailabilitySlot) (n : N) : bool :=
  ((1 <=? n) && (n <=? N.of_nat (List.length slots)))%N.

(** The booking identifier a successful book, reschedule or cancel call
    returns. *)
Definition returnedId (c : RemoteCall) : option string :=
  match c with
  | bookCall _ (Some r) => Some (booking_id r)
  | rescheduleCall _ (Some r) => Some (rr_booking_id r)
  | cancelCall _ (Some r) => Some (cr_booking_id r)
  | _ => None
  end.

(** The effects record [x] as the cancellation reason: it is stored in
    the state first, and it is the reason any cancel call carries. *)
Definition recordsReason (effects : list Effect) (s : ConversationState)
           (x : option string) : Prop :=
  (exists rest,
      effects = setState (set_step cancelling (set_reason x s)) :: rest) /\
  (forall o res, In (await (cancelCall o res)) effects -> co_reason o = x).

Definition isCompleteStep (st : ConversationStep) : bool :=
  match st with
  | bookingComplete | rescheduleComplete | cancelComplete => true
  | _ => false
  end.

End Page.

(** ** Sample backends and turns *)

Module Scenario.
Import Page.

Definition clock0 : Clock :=
  {| todayISO := "2024-01-14"; tomorrowISO := "2024-01-15" |}.

Definition slot0900 : AvailabilitySlot :=
  {| start_time := "09:00"; end_time := "09:45"; available := true |}.
Definition slot0945 : AvailabilitySlot :=
  {| start_time := "09:45"; end_time := "10:30"; available := false |}.
Definition slot1030 : AvailabilitySlot :=
  {| start_time := "10:30"; end_time := "11:15"; available := true |}.

Definition confirmed : BookResult :=
  {| booking_id := "APPT-20240115-0900"; status := "confirmed";
     confirmation_code := "CONF-ABC123" |}.

(** A backend that answers every call. *)
Definition backendUp : Remote :=
  {| clock := clock0;
     fetchAvailability := fun _ _ => Some [slot0900; slot0945; slot1030];
     bookAppointment := fun _ => Some confirmed;
     rescheduleAppointment := fun o =>
       Some {| rr_booking_id := "APPT-20240116-1030"; rr_status := "rescheduled";
               previous_booking_id := ro_bookingId o |};
     cancelAppointment := fun o =>
       Some {| cr_booking_id := co_bookingId o; cr_status := "cancelled" |} |}.

(** A backend whose availability answer holds no available slot. *)
Definition backendFull : Remote :=
  {| clock := clock0;
     fetchAvailability := fun _ _ => Some [slot0945];
     bookAppointment := bookAppointment backendUp;
     rescheduleAppointment := rescheduleAppointment backendUp;
     cancelAppointment := cancelAppointment backendUp |}.

(** A backend that has slots but rejects book, reschedule and cancel. *)
Definition backendRejecting : Remote :=
  {| clock := clock0;
     fetchAvailability := fetchAvailability backendUp;
     bookAppointment := fun _ => None;
     rescheduleAppointment := fun _ => None;
     cancelAppointment := fun _ => None |}.

Definition says (r : Remote) (text : string) : Turn :=
  {| remote := r; input := text |}.

(** The booking dialogue of the end-to-end scenario. *)
Definition bookingTurns (r : Remote) : list Turn :=
  [ says backendUp "book a physical exam"; says backendUp "tomorrow";
    says backendUp "1"; says backendUp "Jane Doe";
    says backendUp "jane@example.com"; says backendUp "555-0100";
    says r "annual checkup" ].

(** A booking dialogue in which the chosen date has no available slot
    and the user then names another date. *)
Definition fullDayTurns : list Turn :=
  [ says backendUp "book a physical exam"; says backendFull "2024-01-15";
    says backendUp "2024-01-16" ].

Definition cancelTurns (r : Remote) (reasonText : string) : list Turn :=
  [ says r "cancel my appointment"; says r "APPT-20240115-0900";
    says r reasonText ].

(** A backend whose availability query is rejected. *)
Definition backendDown : Remote :=
  {| clock := clock0;
     fetchAvailability := fun _ _ => None;
     bookAppointment := bookAppointment backendUp;
     rescheduleAppointment := rescheduleAppointment backendUp;
     cancelAppointment := cancelAppointment backendUp |}.

(** A booking dialogue in which the availability query for the chosen
    date is answered by [r] and the user simply keeps answering. *)
Definition keepAnsweringTurns (r : Remote) : list Turn :=
  [ says backendUp "book a physical exam"; says r "2024-01-15";
    says backendUp "Jane Doe"; says backendUp "jane@example.com";
    says backendUp "555-0100"; says backendUp "annual checkup" ].

(** The component once the booking flow has asked for the reason of the
    visit, every earlier answer given. *)
Definition bookingAsked : Component :=
  conversation (firstn 6 (bookingTurns backendUp)).

(** The component once the cancel flow has the booking id and asks for
    the reason. *)
Definition cancelAsked : Component :=
  conversation (firstn 2 (cancelTurns backendUp "skip")).

Definition rescheduleTurns (r : Remote) : list Turn :=
  [ says r "I need to reschedule"; says r "APPT-20240115-0900";
    says r "2024-01-16"; says r "at 10:30 please" ].

End Scenario.

(** ** The mock scheduling routes

    The four route handlers of the backend.  A handler is a function from
    the parsed request (query parameters, or the JSON body, [None] when
    the body is not valid JSON) to a response.  Two things come from the
    runtime and are taken as given: whether [new Date(value)] accepts a
    string of the shape YYYY-MM-DD (engines differ on days beyond the
    month's length), and, for each book request, the random code drawn
    for its confirmation. *)

Module Routes.
Import JS.

Record Runtime := {
  (** [!Number.isNaN(new Date(value).getTime())] *)
  dateParses : string -> bool
}.

(** A JSON response: status 200 with a body, or status 400 with an
    [error] text. *)
Inductive Response (A : Type) :=
| ok (body : A)
| badRequest (error : string).
Arguments ok {A} body.
Arguments badRequest {A} error.

(** [/^\d{4}-\d{2}-\d{2}$/.test(value)] *)
Definition isoDateShape (value : string) : bool :=
  match value with
  | String y1 (String y2 (String y3 (String y4 (String d1
      (String m1 (String m2 (String d2 (String a1 (String a2 EmptyString))))))))) =>
      isDigit y1 && isDigit y2 && isDigit y3 && isDigit y4
      && (d1 =? "-")%char && isDigit m1 && isDigit m2
      && (d2 =? "-")%char && isDigit a1 && isDigit a2
  | _ => false
  end.

(** The three route files carry the same [isValidDate]. *)
Definition isValidDate (rt : Runtime) (value : string) : bool :=
  if negb (isoDateShape value) then false else dateParses rt value.

(** [/^([01]\d|2[0-3]):[0-5]\d$/.test(value)] *)
Definition isValidTime (value : string) : bool :=
  match value with
  | String h1 (String h2 (String c (String m1 (String m2 EmptyString)))) =>
      ((between 48 49 h1 && isDigit h2) || ((h1 =? "2")%char && between 48 51 h2))
      && (c =? ":")%char && between 48 53 m1 && isDigit m2
  | _ => false
  end.

(** [s.replace(/-/g, EMPTY)] for the code unit [c]. *)
Fixpoint removeAll (c : ascii) (s : string) : string :=
  match s with
  | EmptyString => EmptyString
  | String x r => if (x =? c)%char then removeAll c r else String x (removeAll c r)
  end.

(** [s.replace(":", EMPTY)] : only the first occurrence goes. *)
Fixpoint removeFirst (c : ascii) (s : string) : string :=
  match s with
  | EmptyString => EmptyString
  | String x r => if (x =? c)%char then r else String x (removeFirst c r)
  end.

(** The booking identifier the book and reschedule routes build. *)
Definition appointmentId (date start_time : string) : string :=
  "APPT-" ++ removeAll "-" date ++ "-" ++ removeFirst ":" start_time.

Definition keyString (k : Page.AppointmentTypeKey) : string :=
  match k with
  | Page.consultation => "consultation"
  | Page.followup => "followup"
  | Page.physical => "physical"
  | Page.specialist => "specialist"
  end.

(** The own keys of [APPOINTMENT_TYPE_CONFIG], which are also the members
    of the list the book route tests with [includes]. *)
Definition parseKey (s : string) : option Page.AppointmentTypeKey :=
  if s =? "consultation" then Some Page.consultation
  else if s =? "followup" then Some Page.followup
  else if s =? "physical" then Some Page.physical
  else if s =? "specialist" then Some Page.specialist
  else None.

Module Availability.

Definition durationMinutes (k : Page.AppointmentTypeKey) : N :=
  match k with
  | Page.consultation => 30
  | Page.followup => 15
  | Page.physical => 45
  | Page.specialist => 60
  end.

(** [String(n).padStart(2, "0")] *)
Definition pad2 (n : N) : string := padStart0 2 (decimal n).

Definition formatTime (minutes : N) : string :=
  pad2 (minutes / 60) ++ ":" ++ pad2 (minutes mod 60).

(** [hash = (hash * 31 + hashSource.charCodeAt(j)) >>> 0] over the string. *)
Fixpoint hashFrom (hash : N) (s : string) : N :=
  match s with
  | EmptyString => hash
  | String c r => hashFrom ((hash * 31 + code c) mod 4294967296) r
  end.

Definition startHour : N := 9.
Definition endHour : N := 17.

Definition slotCount (k : Page.AppointmentTypeKey) : N :=
  ((endHour - startHour) * 60) / durationMinutes k.

(** The slot pushed by iteration [i] of the loop. *)
Definition slotAt (date : string) (k : Page.AppointmentTypeKey) (i : N)
  : Page.AvailabilitySlot :=
  let minutesFromStart := (i * durationMinutes k)%N in
  let startMinutes := (startHour * 60 + minutesFromStart)%N in
  let endMinutes := (startMinutes + durationMinutes k)%N in
  let hashSource := date ++ "-" ++ keyString k ++ "-" ++ decimal i in
  let hash := hashFrom 0 hashSource in
  {| Page.start_time := formatTime startMinutes;
     Page.end_time := formatTime endMinutes;
     Page.available := negb (hash mod 3 =? 0)%N |}.

Definition generateSlots (date : string) (k : Page.AppointmentTypeKey)
  : list Page.AvailabilitySlot :=
  map (fun i => slotAt date k (N.of_nat i)) (seq 0 (N.to_nat (slotCount k))).

Record Query := {
  q_date : option string;
  q_appointment_type : option string
}.

Record Body := {
  date : string;
  appointment_type : string;
  available_slots : list Page.AvailabilitySlot
}.

Definition GET (rt : Runtime) (q : Query) : Response Body :=
  match Page.nonEmpty (q_date q), Page.nonEmpty (q_appointment_type q) with
  | Some date, Some appointmentType =>
      if negb (isValidDate rt date)
      then badRequest "Invalid date format. Expected YYYY-MM-DD."
      else
        match parseKey appointmentType with
        | None =>
            badRequest
              "Invalid appointment_type. Expected one of: consultation, followup, physical, specialist."
        | Some k =>
            ok {| date := date; appointment_type := appointmentType;
                  available_slots := generateSlots date k |}
        end
  | _, _ => badRequest "Missing required parameters: date and appointment_type"
  end.

End Availability.

Module Book.

Record Patient := {
  name : option string;
  email : option string;
  phone : option string
}.

Record RequestBody := {
  appointment_type : option string;
  date : option string;
  start_time : option string;
  patient : option Patient;
  reason : option string
}.

Record Body := {
  booking_id : string;
  status : string;
  confirmation_code : string;
  echo : RequestBody
}.

(** [patient?.field], narrowed by its truthiness test. *)
Definition patientField (f : Patient -> option string) (p : option Patient)
  : option string :=
  match p with
  | Some p => Page.nonEmpty (f p)
  | None => None
  end.

(** [randomCode] is what
    [Math.random().toString(36).slice(2, 8).toUpperCase()] gives for this
    request. *)
Definition POST (rt : Runtime) (randomCode : string) (body : option RequestBody)
  : Response Body :=
  match body with
  | None => badRequest "Invalid JSON in request body."
  | Some b =>
      match Page.nonEmpty (appointment_type b), Page.nonEmpty (date b),
            Page.nonEmpty (start_time b), patientField name (patient b),
            patientField email (patient b), patientField phone (patient b) with
      | Some appointment_type, Some date, Some start_time, Some _, Some _, Some _ =>
          if negb (isValidDate rt date)
          then badRequest "Invalid date format. Expected YYYY-MM-DD."
          else if negb (isValidTime start_time)
          then badRequest "Invalid start_time format. Expected HH:mm."
          else if isNull (parseKey appointment_type)
          then badRequest
                 "Invalid appointment_type. Expected one of: consultation, followup, physical, specialist."
          else
            ok {| booking_id := appointmentId date start_time;
                  status := "confirmed";
                  confirmation_code := "CONF-" ++ randomCode;
                  echo := b |}
      | _, _, _, _, _, _ =>
          badRequest
            "Missing required fields. Required: appointment_type, date, start_time, patient (name, email, phone)."
      end
  end.

End Book.

Module Reschedule.

Record RequestBody := {
  booking_id : option string;
  date : option string;
  start_time : option string
}.

Record Body := {
  new_booking_id : string;
  status : string;
  previous_booking_id : string;
  new_date : string;
  new_start_time : string
}.

Definition POST (rt : Runtime) (body : option RequestBody) : Response Body :=
  match body with
  | None => badRequest "Invalid JSON in request body."
  | Some b =>
      match Page.nonEmpty (booking_id b), Page.nonEmpty (date b),
            Page.nonEmpty (start_time b) with
      | Some booking_id, Some date, Some start_time =>
          if negb (isValidDate rt date)
          then badRequest "Invalid date format. Expected YYYY-MM-DD."
          else if negb (isValidTime start_time)
          then badRequest "Invalid start_time format. Expected HH:mm."
          else
            ok {| new_booking_id := appointmentId date start_time;
                  status := "rescheduled";
                  previous_booking_id := booking_id;
                  new_date := date;
                  new_start_time := start_time |}
      | _, _, _ =>
          badRequest "Missing required fields. Required: booking_id, date, start_time."
      end
  end.

End Reschedule.

Module Cancel.

Record RequestBody := {
  booking_id : option string;
  reason : option string
}.

Record Body := {
  cancelled_booking_id : string;
  status : string;
  cancel_reason : option string
}.

Definition POST (body : option RequestBody) : Response Body :=
  match body with
  | None => badRequest "Invalid JSON in request body."
  | Some b =>
      match Page.nonEmpty (booking_id b) with
      | None => badRequest "Missing required field: booking_id."
      | Some booking_id =>
          ok {| cancelled_booking_id := booking_id;
                status := "cancelled";
                cancel_reason := reason b |}
      end
  end.

End Cancel.

End Routes.

(** ** The page's remote client against the mock routes

    [fetchAvailability], [bookAppointment], [rescheduleAppointment] and
    [cancelAppointment] of the page build a request, call a route and throw
    on a non-success status.  Here each is composed with its route; a
    query string and a JSON body carry strings and nulls unchanged. *)

Module Client.
Import Routes.

Definition fetchAvailability (rt : Runtime) (date : string)
           (appointmentType : Page.AppointmentTypeConfig)
  : option (list Page.AvailabilitySlot) :=
  match Availability.GET rt
          {| Availability.q_date := Some date;
             Availability.q_appointment_type :=
               Some (keyString (Page.key appointmentType)) |} with
  | ok data => Some (Availability.available_slots data)
  | badRequest _ => None
  end.

Definition bookAppointment (rt : Runtime) (randomCode : string)
           (options : Page.BookOptions)
  : option Page.BookResult :=
  match Book.POST rt randomCode
          (Some {| Book.appointment_type :=
                     Some (keyString (Page.key (Page.bo_appointmentType options)));
                   Book.date := Some (Page.bo_date options);
                   Book.start_time := Some (Page.start_time (Page.bo_slot options));
                   Book.patient :=
                     Some {| Book.name := Some (Page.bo_name options);
                             Book.email := Some (Page.bo_email options);
                             Book.phone := Some (Page.bo_phone options) |};
                   Book.reason := Page.bo_reason options |}) with
  | ok data =>
      Some {| Page.booking_id := Book.booking_id data;
              Page.status := Book.status data;
              Page.confirmation_code := Book.confirmation_code data |}
  | badRequest _ => None
  end.

Definition rescheduleAppointment (rt : Runtime) (options : Page.RescheduleOptions)
  : option Page.RescheduleResult :=
  match Reschedule.POST rt
          (Some {| Reschedule.booking_id := Some (Page.ro_bookingId options);
                   Reschedule.date := Some (Page.ro_date options);
                   Reschedule.start_time := Some (Page.ro_startTime options) |}) with
  | ok data =>
      Some {| Page.rr_booking_id := Reschedule.new_booking_id data;
              Page.rr_status := Reschedule.status data;
              Page.previous_booking_id := Reschedule.previous_booking_id data |}
  | badRequest _ => None
  end.

Definition cancelAppointment (options : Page.CancelOptions)
  : option Page.CancelResult :=
  match Cancel.POST
          (Some {| Cancel.booking_id := Some (Page.co_bookingId options);
                   Cancel.reason := Page.co_reason options |}) with
  | ok data =>
      Some {| Page.cr_booking_id := Cancel.cancelled_booking_id data;
              Page.cr_status := Cancel.status data |}
  | badRequest _ => None
  end.

(** The backend a turn talks to when every call reaches the mock routes;
    [randomCode] is the code drawn if the turn books. *)
Definition mockRemote (rt : Runtime) (randomCode : string) (clock : Page.Clock)
  : Page.Remote :=
  {| Page.clock := clock;
     Page.fetchAvailability := fetchAvailability rt;
     Page.bookAppointment := bookAppointment rt randomCode;
     Page.rescheduleAppointment := rescheduleAppointment rt;
     Page.cancelAppointment := cancelAppointment |}.

End Client.

(** ** Further sample data *)

Module Samples.
Import Page.

Definition physicalType : AppointmentTypeConfig :=
  {| key := physical; label := "Physical Exam"; durationMinutes := 45 |}.

(** A runtime whose date parser accepts months 01 to 12 and days 01 to 31. *)
Definition runtime0 : Routes.Runtime :=
  {| Routes.dateParses := fun v =>
       let month := JS.Number (substring 5 2 v) in
       let day := JS.Number (substring 8 2 v) in
       ((1 <=? month) && (month <=? 12) && (1 <=? day) && (day <=? 31))%N |}.

Definition mock0 : Remote :=
  Client.mockRemote runtime0 "K3Q9ZD" Scenario.clock0.

Definition asks (text : string) : Turn := Scenario.says mock0 text.

End Samples.

(** ** Notions used to state further properties *)

Module Props.
Import JS Regex Page.

(** [m] occurs in [s] as a contiguous piece. *)
Definition occursIn (m s : string) : Prop :=
  exists pre post, s = pre ++ m ++ post.

(** Every code unit of [s] is white space. *)
Definition blank (s : string) : Prop :=
  forall c, occurs c s -> isWhiteSpace c = true.

(** The slots a state offers are available ones, five at most. *)
Definition offered (s : ConversationState) : Prop :=
  Forall (fun slot => available slot = true) (slots s)
  /\ List.length (slots s) <= 5.

(** The utterances that ask again for the answer just given. *)
Definition isReprompt (m : AgentMessage) : bool :=
  match m with
  | sayBadDate | saySlotNotMatched | sayBadTime
  | sayNeedRescheduleId | sayNeedCancelId => true
  | _ => false
  end.

(** The remote calls among the effects, in order. *)
Fixpoint callsOf (es : list Effect) : list RemoteCall :=
  match es with
  | [] => []
  | await call :: r => call :: callsOf r
  | _ :: r => callsOf r
  end.

(** The agent's utterances among the effects, in order. *)
Fixpoint repliesOf (es : list Effect) : list AgentMessage :=
  match es with
  | [] => []
  | appendAgentMessage m :: r => m :: repliesOf r
  | _ :: r => repliesOf r
  end.

(** Starting with the busy flag at [busy], every remote call among the
    effects is awaited while the flag is set, and the flag is clear when
    the effects end. *)
Fixpoint callsWhileBusy (busy : bool) (es : list Effect) : bool :=
  match es with
  | [] => negb busy
  | setIsBusy b :: r => callsWhileBusy b r
  | await _ :: r => busy && callsWhileBusy busy r
  | _ :: r => callsWhileBusy busy r
  end.

(** The conversation is past its first turn: the step is neither idle nor
    askIntent. *)
Definition inFlow (s : ConversationState) : bool :=
  negb (step_eqb (step s) idle || step_eqb (step s) askIntent).

(** The turn talks to the mock routes, under the runtime [rt]. *)
Definition mockTurn (rt : Routes.Runtime) (t : Turn) : Prop :=
  exists randomCode clock, remote t = Client.mockRemote rt randomCode clock.

(** Whatever the state offers can be booked: when it offers slots, its
    date is one the routes accept, and every offered slot starts at a
    time of the form HH:mm. *)
Definition bookable (rt : Routes.Runtime) (s : ConversationState) : Prop :=
  (slots s <> [] -> exists d, date s = Some d /\ Routes.isValidDate rt d = true)
  /\ Forall (fun slot => Routes.isValidTime (start_time slot) = true) (slots s).

(** Past the booking-id question of the reschedule and cancel flows the
    state holds a non-empty booking id. *)
Definition holdsId (s : ConversationState) : bool :=
  match step s with
  | askNewDateForReschedule | askNewTimeForReschedule | askReasonForCancel =>
      truthy (bookingId s)
  | _ => true
  end.

End Props.

Import JS Regex Page.

(** ** The primitives on sample inputs *)

Example trim_samples :
  trim "  Jane Doe " = "Jane Doe" /\ trim "   " = EmptyString
  /\ toLowerCase "Follow-UP" = "follow-up"
  /\ padStart0 5 "9:05" = "09:05" /\ padStart0 5 "10:30" = "10:30".
Proof. repeat split; reflexivity. Qed.

Example isoMatch_samples :
  isoMatch "on 2024-01-15, please" = Some "2024-01-15"
  /\ isoMatch "2024-1-15" = None
  /\ isoMatch "12024-01-15" = None
  /\ isoMatch "2024-01-155 or 2024-02-01" = Some "2024-02-01"
  /\ isoMatch "2024-13-45" = Some "2024-13-45".
Proof. repeat split; reflexivity. Qed.

Example timeMatch_samples :
  timeMatch "at 9:05 please" = Some "9:05"
  /\ timeMatch "21:30" = Some "21:30"
  /\ timeMatch "01:30" = Some "01:30"
  /\ timeMatch "24:00" = None
  /\ timeMatch "7:05pm" = None
  /\ timeMatch "123:45" = None
  /\ timeMatch "9:60 or 9:59" = Some "9:59".
Proof. repeat split; reflexivity. Qed.

Example parseSlotSelection_samples :
  let slots := [Scenario.slot0900; Scenario.slot0945; Scenario.slot1030] in
  parseSlotSelection "at 9:00" slots = Some Scenario.slot0900
  /\ parseSlotSelection "09:45" slots = None
  /\ parseSlotSelection "2" slots = Some Scenario.slot0945
  /\ parseSlotSelection "the second one" slots = None
  /\ parseSlotSelection "1" [] = None.
Proof. repeat split; reflexivity. Qed.

Example normalizeDateFromInput_samples :
  normalizeDateFromInput Scenario.clock0 "2024-01-15" = Some "2024-01-15"
  /\ normalizeDateFromInput Scenario.clock0 "Tomorrow morning" = Some "2024-01-15"
  /\ normalizeDateFromInput Scenario.clock0 "today" = Some "2024-01-14"
  /\ normalizeDateFromInput Scenario.clock0 "next Tuesday" = None.
Proof. repeat split; reflexivity. Qed.

(** ** Facts about the string primitives *)

Section StringFacts.

Lemma prefix_app (p r : string) : prefix p (p ++ r) = true.
Proof.
  induction p as [|x p IH]; simpl.
  - now destruct r.
  - destruct (ascii_dec x x) as [_|n]; [exact IH | now elim n].
Qed.

Lemma prefix_split (p s : string) :
  prefix p s = true -> exists r, s = p ++ r.
Proof.
  revert s; induction p as [|x p IH]; intros s H.
  - now exists s.
  - destruct s as [|y s]; simpl in H; [discriminate|].
    destruct (ascii_dec x y) as [->|]; [|discriminate].
    destruct (IH _ H) as [r ->]. now exists r.
Qed.

Lemma prefix_includes (pat s : string) :
  prefix pat s = true -> includes s pat = true.
Proof. intros H. destruct s; cbn [includes]; now rewrite H. Qed.

Lemma includes_app (a pat b : string) : includes (a ++ pat ++ b) pat = true.
Proof.
  induction a as [|x a IH].
  - change (includes (pat ++ b) pat = true).
    apply prefix_includes, prefix_app.
  - cbn [append includes]. rewrite IH. apply orb_true_r.
Qed.

Lemma includes_split (s pat : string) :
  includes s pat = true -> exists a b, s = a ++ pat ++ b.
Proof.
  induction s as [|x s IH]; cbn [includes]; intros H.
  - rewrite orb_false_r in H. destruct (prefix_split _ _ H) as [r E].
    now exists EmptyString, r.
  - apply orb_true_iff in H as [H|H].
    + destruct (prefix_split _ _ H) as [r E]. now exists EmptyString, r.
    + destruct (IH H) as (a & b & ->). now exists (String x a), b.
Qed.

Lemma includes_iff (s pat : string) :
  includes s pat = true <-> exists a b, s = a ++ pat ++ b.
Proof.
  split; [apply includes_split | intros (a & b & ->); apply includes_app].
Qed.

Lemma toLowerCase_app (a b : string) :
  toLowerCase (a ++ b) = toLowerCase a ++ toLowerCase b.
Proof. induction a as [|x a IH]; simpl; [reflexivity | now rewrite IH]. Qed.

Lemma toLowerCase_split (s a b : string) :
  toLowerCase s = a ++ b ->
  exists s1 s2, s = s1 ++ s2 /\ toLowerCase s1 = a /\ toLowerCase s2 = b.
Proof.
  revert s; induction a as [|x a IH]; intros s H.
  - now exists EmptyString, s.
  - destruct s as [|y s]; simpl in H; [discriminate|].
    injection H as Hx Hs. destruct (IH _ Hs) as (s1 & s2 & -> & H1 & H2).
    exists (String y s1), s2. simpl. now rewrite Hx, H1.
Qed.

(** Containment up to letter case is what the source tests with
    [toLowerCase] and [includes]. *)
Lemma containsAnyCase_iff (pat text : string) :
  containsAnyCase pat text <-> includes (toLowerCase text) pat = true.
Proof.
  rewrite includes_iff. split.
  - intros (pre & mid & post & -> & <-).
    exists (toLowerCase pre), (toLowerCase post).
    now rewrite !toLowerCase_app.
  - intros (a & b & H).
    destruct (toLowerCase_split _ _ _ H) as (pre & rest & -> & Ha & Hr).
    destruct (toLowerCase_split _ _ _ Hr) as (mid & post & -> & Hm & Hp).
    now exists pre, mid, post.
Qed.

Lemma trimEnd_idem (s : string) : trimEnd (trimEnd s) = trimEnd s.
Proof.
  induction s as [|c r IH]; [reflexivity|].
  cbn [trimEnd]. destruct (trimEnd r) as [|c' r'] eqn:E.
  - destruct (isWhiteSpace c) eqn:W; [reflexivity|].
    cbn [trimEnd]. now rewrite W.
  - cbn [trimEnd] in *. now rewrite IH.
Qed.

Lemma trimStart_head (s : string) :
  match trimStart s with
  | EmptyString => True
  | String c _ => isWhiteSpace c = false
  end.
Proof.
  induction s as [|c r IH]; cbn [trimStart]; [exact I|].
  destruct (isWhiteSpace c) eqn:W; [exact IH | exact W].
Qed.

Lemma trimEnd_head (c : ascii) (r : string) :
  isWhiteSpace c = false -> exists r', trimEnd (String c r) = String c r'.
Proof.
  intros W. cbn [trimEnd]. destruct (trimEnd r); rewrite ?W; eauto.
Qed.

Lemma trim_idem (s : string) : trim (trim s) = trim s.
Proof.
  unfold trim. pose proof (trimStart_head s) as H.
  destruct (trimStart s) as [|c r]; [reflexivity|].
  destruct (trimEnd_head c r H) as [r' E]. rewrite E.
  cbn [trimStart]. rewrite H, <- E. apply trimEnd_idem.
Qed.

End StringFacts.

(** ** Intent classifier and appointment-type extractor *)

Section Classifiers.

Lemma mentions_iff (k : AppointmentTypeKey) (text : string) :
  mentions k text <->
  existsb (fun syn => includes (toLowerCase text) syn) (synonyms k) = true.
Proof.
  unfold mentions. rewrite existsb_exists.
  split; intros (syn & Hin & H); exists syn; split; trivial;
    now apply containsAnyCase_iff.
Qed.

Lemma not_true_false (b : bool) : ~ b = true <-> b = false.
Proof. destruct b; intuition congruence. Qed.

End Classifiers.

(** C8. [detectIntent] is a total function into the three intents.  Any
    text that contains "reschedul" in any letter case, whatever surrounds
    it, is classified as reschedule; a text that contains "cancel" but not
    "reschedul" is classified as cancel; every other text as book. *)
Theorem detectIntent_by_token (text : string) :
  (forall pre mid post,
      text = pre ++ mid ++ post -> toLowerCase mid = "reschedul" ->
      detectIntent text = reschedule) /\
  (~ containsAnyCase "reschedul" text -> containsAnyCase "cancel" text ->
   detectIntent text = cancel) /\
  (~ containsAnyCase "reschedul" text -> ~ containsAnyCase "cancel" text ->
   detectIntent text = book) /\
  (detectIntent text = reschedule \/ detectIntent text = cancel
   \/ detectIntent text = book).
Proof.
  unfold detectIntent.
  repeat split.
  - intros pre mid post E Hm.
    assert (H : containsAnyCase "reschedul" text) by now exists pre, mid, post.
    apply containsAnyCase_iff in H. now rewrite H.
  - rewrite !containsAnyCase_iff, not_true_false. now intros -> ->.
  - rewrite !containsAnyCase_iff, !not_true_false. now intros -> ->.
  - destruct (includes _ "reschedul"); [now left|].
    destruct (includes _ "cancel"); [right; now left | right; now right].
Qed.

Lemma detectIntent_by_token_witness :
  detectIntent "Could you ReSCHEDULe my visit, or cancel it?" = reschedule.
Proof.
  apply (proj1 (detectIntent_by_token _)
           "Could you " "ReSCHEDUL" "e my visit, or cancel it?");
    reflexivity.
Defined.

(** C10, as the code has it.  [detectAppointmentType] returns the catalog
    entry of the first type, in the order follow-up, physical, specialist,
    consultation, of which the text contains a synonym in any letter case,
    and nothing when it contains none.  A text containing both
    "specialist" and "consult" never yields the consultation type; it
    yields the specialist type when it mentions neither follow-up nor
    physical, and the higher-priority type otherwise. *)
Theorem detectAppointmentType_priority (text : string) :
  (mentions followup text ->
   detectAppointmentType text =
   Some {| key := followup; label := "Follow-up"; durationMinutes := 15 |}) /\
  (~ mentions followup text -> mentions physical text ->
   detectAppointmentType text =
   Some {| key := physical; label := "Physical Exam"; durationMinutes := 45 |}) /\
  (~ mentions followup text -> ~ mentions physical text ->
   mentions specialist text ->
   detectAppointmentType text =
   Some {| key := specialist; label := "Specialist Consultation";
           durationMinutes := 60 |}) /\
  (~ mentions followup text -> ~ mentions physical text ->
   ~ mentions specialist text -> mentions consultation text ->
   detectAppointmentType text =
   Some {| key := consultation; label := "General Consultation";
           durationMinutes := 30 |}) /\
  (~ mentions followup text -> ~ mentions physical text ->
   ~ mentions specialist text -> ~ mentions consultation text ->
   detectAppointmentType text = None) /\
  (containsAnyCase "specialist" text -> containsAnyCase "consult" text ->
   option_map key (detectAppointmentType text) <> Some consultation /\
   (~ mentions followup text -> ~ mentions physical text ->
    option_map key (detectAppointmentType text) = Some specialist)).
Proof.
  rewrite !mentions_iff, !containsAnyCase_iff.
  unfold detectAppointmentType, findType. cbn [synonyms existsb].
  destruct (includes (toLowerCase text) "follow");
    destruct (includes (toLowerCase text) "follow-up");
    destruct (includes (toLowerCase text) "physical");
    destruct (includes (toLowerCase text) "specialist");
    destruct (includes (toLowerCase text) "consult");
    destruct (includes (toLowerCase text) "general");
    destruct (includes (toLowerCase text) "checkup");
    destruct (includes (toLowerCase text) "check-up");
    cbn; repeat split; intros; try reflexivity; try congruence;
    try discriminate.
Qed.

Lemma detectAppointmentType_priority_witness :
  option_map key (detectAppointmentType "A Specialist Consultation, please")
  = Some specialist.
Proof.
  refine (proj2 (proj2 (proj2 (proj2 (proj2 (proj2
            (detectAppointmentType_priority
               "A Specialist Consultation, please"))))) _ _) _ _).
  - now exists "A ", "Specialist", " Consultation, please".
  - now exists "A Specialist ", "Consult", "ation, please".
  - rewrite mentions_iff. vm_compute. discriminate.
  - rewrite mentions_iff. vm_compute. discriminate.
Defined.

(** C10 as stated fails: a text may contain both "specialist" and
    "consult" and still not yield the specialist type, because a synonym
    of a higher-priority type is present as well. *)
Lemma specialist_consult_counterexample :
  ~ (forall text,
        containsAnyCase "specialist" text -> containsAnyCase "consult" text ->
        option_map key (detectAppointmentType text) = Some specialist).
Proof.
  intros H.
  specialize (H "follow-up with a specialist consult").
  assert (E : option_map key
                (detectAppointmentType "follow-up with a specialist consult")
              = Some followup) by reflexivity.
  rewrite E in H.
  discriminate H.
  - now exists "follow-up with a ", "specialist", " consult".
  - now exists "follow-up with a specialist ", "consult", EmptyString.
Qed.

(** ** Slot selection *)

Section SlotSelection.

Lemma digit_not_space (c : ascii) : isDigit c = true -> isWhiteSpace c = false.
Proof.
  unfold isDigit, isWhiteSpace, between. generalize (code c) as k. intros k H.
  apply andb_true_iff in H as [H1 H2]. apply N.leb_le in H1, H2.
  destruct (N.leb_spec 9 k), (N.leb_spec k 13), (N.eqb_spec k 32),
    (N.eqb_spec k 160); simpl; try reflexivity; lia.
Qed.

Lemma allDigits_occurs (s : string) (c : ascii) :
  allDigits s = true -> occurs c s -> isDigit c = true.
Proof.
  induction s as [|x s IH]; simpl; [tauto|].
  intros H [->|Hc]; apply andb_true_iff in H as [Hx Hs]; auto.
Qed.

Lemma trimStart_occurs (s : string) (c : ascii) :
  occurs c s -> isWhiteSpace c = true \/ occurs c (trimStart s).
Proof.
  induction s as [|x s IH]; simpl; [tauto|].
  destruct (isWhiteSpace x) eqn:E.
  - intros [<-|H]; [now left | now apply IH].
  - intros H. now right.
Qed.

Lemma trimEnd_occurs (s : string) (c : ascii) :
  occurs c s -> isWhiteSpace c = true \/ occurs c (trimEnd s).
Proof.
  induction s as [|x s IH]; simpl; [tauto|].
  intros [<-|H].
  - destruct (trimEnd s); [destruct (isWhiteSpace x) eqn:E|];
      simpl; auto.
  - destruct (IH H) as [Hw|Ho]; [now left|].
    destruct (trimEnd s); simpl in *; [tauto | right; now right].
Qed.

Lemma trim_occurs (s : string) (c : ascii) :
  occurs c s -> isWhiteSpace c = true \/ occurs c (trim s).
Proof.
  intros H. destruct (trimStart_occurs _ _ H) as [Hw|Ho]; [now left|].
  now apply trimEnd_occurs.
Qed.

Lemma trimStart_digits (s : string) : allDigits s = true -> trimStart s = s.
Proof.
  destruct s as [|x s]; simpl; [reflexivity|].
  intros H. apply andb_true_iff in H as [Hx _].
  now rewrite (digit_not_space _ Hx).
Qed.

Lemma trimEnd_digits (s : string) : allDigits s = true -> trimEnd s = s.
Proof.
  induction s as [|x s IH]; simpl; [reflexivity|].
  intros H. apply andb_true_iff in H as [Hx Hs].
  rewrite (IH Hs), (digit_not_space _ Hx). now destruct s.
Qed.

Lemma trim_digits (s : string) : allDigits s = true -> trim s = s.
Proof.
  intros H. unfold trim. rewrite (trimStart_digits _ H).
  now apply trimEnd_digits.
Qed.

(** A time literal needs a colon. *)
Lemma minutesAt_colon (s t : string) : minutesAt s = Some t -> occurs ":" s.
Proof.
  destruct s as [|c [|m1 [|m2 rest]]]; simpl; try discriminate.
  destruct (Ascii.eqb_spec c ":"); simpl; [now left | discriminate].
Qed.

Lemma timeAt_colon (s m : string) : timeAt s = Some m -> occurs ":" s.
Proof.
  unfold timeAt, orElse.
  destruct s as [|h1 [|h2 r]]; cbn [occurs]; try discriminate.
  - destruct (isDigit h1); discriminate.
  - destruct (between 48 49 h1 && isDigit h2);
      [destruct (minutesAt r) eqn:E1;
       [intros _; right; right; eapply minutesAt_colon; eassumption|] |];
      cbn [option_map];
      (destruct (isDigit h1);
       [destruct (minutesAt (String h2 r)) eqn:E2;
        [intros _; right; eapply (minutesAt_colon (String h2 r)); eassumption|] |];
       cbn [option_map];
       (destruct ((h1 =? "2")%char && between 48 51 h2);
        [destruct (minutesAt r) eqn:E3;
         [intros _; right; right; eapply minutesAt_colon; eassumption|] |];
        cbn [option_map]; discriminate)).
Qed.

Lemma timeScan_colon (s m : string) (before : option ascii) :
  timeScan before s = Some m -> occurs ":" s.
Proof.
  revert before; induction s as [|c r IH]; intros before; cbn [timeScan];
    [discriminate|].
  destruct (wordBoundary before (Some c)).
  - destruct (timeAt (String c r)) eqn:E.
    + intros _. eapply timeAt_colon; eassumption.
    + intros H. right. eapply IH; eassumption.
  - intros H. right. eapply IH; eassumption.
Qed.

Lemma numeric_no_time (input digits : string) :
  numericMatch (trim input) = Some digits -> timeMatch input = None.
Proof.
  intros H. destruct (timeMatch input) as [m|] eqn:E; [|reflexivity].
  apply timeScan_colon, trim_occurs in E.
  unfold numericMatch in H. destruct (trim input) as [|x t] eqn:Et;
    [discriminate|].
  destruct (allDigits (String x t)) eqn:Ed; [|discriminate].
  destruct E as [E|E]; [discriminate E|].
  apply (allDigits_occurs _ _ Ed) in E. discriminate E.
Qed.

(** The decimal numeral of [n] is a non-empty digit string whose
    [Number] is [n]. *)
Lemma allDigits_string_of_uint (d : Decimal.uint) :
  allDigits (NilEmpty.string_of_uint d) = true.
Proof. induction d; simpl; trivial. Qed.

Lemma NumberFrom_pos (d : Decimal.uint) (acc : positive) :
  NumberFrom (Npos acc) (NilEmpty.string_of_uint d)
  = Npos (Pos.of_uint_acc d acc).
Proof.
  revert acc; induction d; intros acc; cbn [NilEmpty.string_of_uint NumberFrom
    Pos.of_uint_acc]; try reflexivity; rewrite <- IHd; f_equal;
    match goal with
    | |- context [digitValue ?c] =>
        let v := eval vm_compute in (digitValue c) in
        change (digitValue c) with v
    end; lia.
Qed.

Lemma NumberFrom_zero (d : Decimal.uint) :
  NumberFrom 0 (NilEmpty.string_of_uint d) = Pos.of_uint d.
Proof.
  induction d; cbn [NilEmpty.string_of_uint NumberFrom Pos.of_uint];
    try reflexivity; try exact IHd;
    match goal with
    | |- NumberFrom ?a _ = _ =>
        let v := eval vm_compute in a in
        change a with v
    end; apply NumberFrom_pos.
Qed.

Lemma Number_decimal (n : N) : Number (decimal n) = n.
Proof.
  unfold Number, decimal. rewrite NumberFrom_zero.
  change (Pos.of_uint (N.to_uint n)) with (N.of_uint (N.to_uint n)).
  apply DecimalN.Unsigned.of_to.
Qed.

Lemma allDigits_decimal (n : N) : allDigits (decimal n) = true.
Proof. apply allDigits_string_of_uint. Qed.

Lemma decimal_nonempty (n : N) : decimal n <> EmptyString.
Proof.
  unfold decimal. destruct n as [|p]; [discriminate|].
  cbn [N.to_uint]. intros H.
  assert (E : Pos.to_uint p = Decimal.Nil).
  { destruct (Pos.to_uint p); try discriminate H. reflexivity. }
  pose proof (DecimalPos.Unsigned.of_to p) as Hp.
  rewrite E in Hp. discriminate Hp.
Qed.

Lemma numericMatch_decimal (n : N) :
  numericMatch (trim (decimal n)) = Some (decimal n).
Proof.
  rewrite (trim_digits _ (allDigits_decimal n)). unfold numericMatch.
  pose proof (decimal_nonempty n). destruct (decimal n) eqn:E; [congruence|].
  rewrite <- E, allDigits_decimal. reflexivity.
Qed.

End SlotSelection.

Section SlotSelectionByIndex.

Variable slots : list AvailabilitySlot.

Lemma index_test (n : N) :
  ((0 <=? Z.of_N n - 1) && (Z.of_N n - 1 <? Z.of_nat (List.length slots)))%Z
  = ordinalInRange slots n.
Proof.
  unfold ordinalInRange. apply eq_true_iff_eq.
  rewrite !andb_true_iff, Z.leb_le, Z.ltb_lt, !N.leb_le. lia.
Qed.

Lemma index_nat (n : N) : Z.to_nat (Z.of_N n - 1) = N.to_nat (n - 1).
Proof. lia. Qed.

(** What [parseSlotSelection] answers on any input whose trimmed text is
    a run of digits. *)
Lemma parseSlotSelection_digits (input digits : string) :
  numericMatch (trim input) = Some digits ->
  parseSlotSelection input slots =
  if ordinalInRange slots (Number digits)
  then nth_error slots (N.to_nat (Number digits - 1))
  else None.
Proof.
  intros H. unfold parseSlotSelection.
  rewrite H, index_test, index_nat, (numeric_no_time _ _ H).
  destruct slots as [|s0 rest] eqn:Es.
  - unfold ordinalInRange. simpl.
    destruct (N.leb_spec 1 (Number digits)), (N.leb_spec (Number digits) 0);
      try reflexivity; lia.
  - rewrite <- Es. destruct (ordinalInRange slots (Number digits)) eqn:Er;
      [|reflexivity].
    destruct (nth_error slots (N.to_nat (Number digits - 1))) eqn:En;
      [reflexivity|].
    apply nth_error_None in En. unfold ordinalInRange in Er.
    apply andb_true_iff in Er as [E1 E2]. apply N.leb_le in E1, E2. lia.
Qed.

End SlotSelectionByIndex.

(** C9. For every slot list and every integer [n] with
    [1 <= n <= length slots], [parseSlotSelection] applied to the decimal
    numeral of [n] returns the slot at position [n - 1]; for [n] outside
    that range it returns nothing.  The index is tried first: whenever the
    trimmed input is a run of digits denoting an ordinal in range, the
    answer is the slot at that ordinal, and such an input never holds a
    time literal that could compete with it. *)
Theorem parseSlotSelection_ordinal (slots : list AvailabilitySlot) (n : N) :
  ((1 <= n <= N.of_nat (List.length slots))%N ->
   exists slot, nth_error slots (N.to_nat (n - 1)) = Some slot /\
                parseSlotSelection (decimal n) slots = Some slot) /\
  (~ (1 <= n <= N.of_nat (List.length slots))%N ->
   parseSlotSelection (decimal n) slots = None) /\
  (forall input digits,
      numericMatch (trim input) = Some digits -> Number digits = n ->
      (1 <= n <= N.of_nat (List.length slots))%N ->
      parseSlotSelection input slots = nth_error slots (N.to_nat (n - 1)) /\
      timeMatch input = None).
Proof.
  assert (R : forall m, ordinalInRange slots m = true
                        <-> (1 <= m <= N.of_nat (List.length slots))%N).
  { intros m. unfold ordinalInRange.
    rewrite andb_true_iff, !N.leb_le. tauto. }
  repeat split.
  - intros Hn.
    rewrite (parseSlotSelection_digits slots _ _ (numericMatch_decimal n)),
      Number_decimal.
    apply R in Hn as Hr. rewrite Hr.
    destruct (nth_error slots (N.to_nat (n - 1))) as [slot|] eqn:En.
    + now exists slot.
    + apply nth_error_None in En. lia.
  - intros Hn.
    rewrite (parseSlotSelection_digits slots _ _ (numericMatch_decimal n)),
      Number_decimal.
    destruct (ordinalInRange slots n) eqn:Er; [|reflexivity].
    apply R in Er. contradiction.
  - rewrite (parseSlotSelection_digits slots _ _ H). subst n.
    apply R in H1. now rewrite H1.
  - eapply numeric_no_time; eassumption.
Qed.

Lemma parseSlotSelection_ordinal_witness :
  parseSlotSelection "2" [Scenario.slot0900; Scenario.slot0945; Scenario.slot1030]
  = Some Scenario.slot0945
  /\ parseSlotSelection "4" [Scenario.slot0900; Scenario.slot0945; Scenario.slot1030]
     = None
  /\ parseSlotSelection " 03 " [Scenario.slot0900; Scenario.slot0945; Scenario.slot1030]
     = Some Scenario.slot1030.
Proof.
  split; [|split].
  - destruct (proj1 (parseSlotSelection_ordinal
                       [Scenario.slot0900; Scenario.slot0945; Scenario.slot1030] 2))
      as (slot & Hs & Hp); [simpl; lia|].
    change (decimal 2) with "2" in Hp. rewrite Hp, <- Hs. reflexivity.
  - apply (proj1 (proj2 (parseSlotSelection_ordinal
                       [Scenario.slot0900; Scenario.slot0945; Scenario.slot1030] 4))).
    simpl. lia.
  - apply (proj2 (proj2 (parseSlotSelection_ordinal
                       [Scenario.slot0900; Scenario.slot0945; Scenario.slot1030] 3))
             " 03 " "03"); [reflexivity | reflexivity | simpl; lia].
Defined.

(** ** The flows *)

(** Case analysis on every test a handler makes. *)
Ltac break_tests :=
  repeat match goal with
    | |- context [match ?x with _ => _ end] => destruct x eqn:?
    | H : context [match ?x with _ => _ end] |- _ => destruct x eqn:?
    end.

(** A membership hypothesis in an explicit effect list. *)
Ltac in_effects H :=
  cbn [In] in H;
  repeat match type of H with
    | _ \/ _ => destruct H as [H|H]
    | False => contradiction
    end;
  try discriminate H.

Section FlowFacts.

Variable r : Remote.

Lemma nonEmpty_Some (o : option string) (x : string) :
  nonEmpty o = Some x -> o = Some x /\ truthy o = true.
Proof. destruct o as [[|a t]|]; simpl; intros [= <-] || discriminate; auto. Qed.

Lemma applyEffects_cons (c : Component) (e : Effect) (es : list Effect) :
  applyEffects c (e :: es) = applyEffects (applyEffect c e) es.
Proof. reflexivity. Qed.

(** The booking handler never issues a reschedule or cancel call. *)
Lemma booking_calls (s : ConversationState) (u : string) (call : RemoteCall) :
  In (await call) (handleBookingFlow r s u) ->
  match call with
  | availabilityCall _ _ _ | bookCall _ _ => True
  | _ => False
  end.
Proof.
  unfold handleBookingFlow. intros H.
  destruct call; trivial; exfalso; break_tests; in_effects H.
Qed.

Lemma reschedule_calls (s : ConversationState) (u : string) (call : RemoteCall) :
  In (await call) (handleRescheduleFlow r s u) ->
  match call with rescheduleCall _ _ => True | _ => False end.
Proof.
  unfold handleRescheduleFlow. intros H.
  destruct call; trivial; exfalso; break_tests; in_effects H.
Qed.

Lemma cancel_calls (s : ConversationState) (u : string) (call : RemoteCall) :
  In (await call) (handleCancelFlow r s u) ->
  match call with cancelCall _ _ => True | _ => False end.
Proof.
  unfold handleCancelFlow. intros H.
  destruct call; trivial; exfalso; break_tests; in_effects H.
Qed.

Lemma reschedule_failure_resets (s : ConversationState) (u : string)
      (o : RescheduleOptions) (c : Component) :
  In (await (rescheduleCall o None)) (handleRescheduleFlow r s u) ->
  state (applyEffects c (handleRescheduleFlow r s u)) = createInitialState.
Proof.
  unfold handleRescheduleFlow. intros H.
  break_tests; in_effects H; reflexivity.
Qed.

Lemma cancel_failure_resets (s : ConversationState) (u : string)
      (o : CancelOptions) (c : Component) :
  In (await (cancelCall o None)) (handleCancelFlow r s u) ->
  state (applyEffects c (handleCancelFlow r s u)) = createInitialState.
Proof.
  unfold handleCancelFlow. intros H.
  break_tests; in_effects H; reflexivity.
Qed.

End FlowFacts.

(** Dispatch of a membership hypothesis [H] about the effects of
    [handleSubmit] to the handler the turn was routed to. *)
Ltac routed H :=
  unfold submit, effectsOf, handleSubmit in *;
  break_tests;
  cbn [In] in H;
  repeat match type of H with
    | _ \/ _ => destruct H as [H|H]; [discriminate H|]
    | False => contradiction
    end;
  repeat rewrite applyEffects_cons.

(** C3. When the reschedule call of a turn fails, and likewise when the
    cancel call of a turn fails, the state after the turn is the empty
    initial state: no intent, the awaiting-intent step, nothing kept. *)
Theorem remote_failure_resets (c : Component) (t : Turn) :
  (forall o, In (await (rescheduleCall o None)) (effectsOf c t) ->
             state (submit c t) = createInitialState) /\
  (forall o, In (await (cancelCall o None)) (effectsOf c t) ->
             state (submit c t) = createInitialState) /\
  intent createInitialState = None /\ step createInitialState = askIntent.
Proof.
  repeat split; intros o H; routed H;
    solve [ apply booking_calls in H; contradiction
          | apply reschedule_calls in H; contradiction
          | apply cancel_calls in H; contradiction
          | eapply reschedule_failure_resets; eassumption
          | eapply cancel_failure_resets; eassumption ].
Qed.

Lemma remote_failure_resets_witness :
  state (conversation (Scenario.rescheduleTurns Scenario.backendRejecting))
  = createInitialState /\
  state (conversation (Scenario.cancelTurns Scenario.backendRejecting "plans changed"))
  = createInitialState.
Proof.
  split.
  - apply (proj1 (remote_failure_resets
                    (conversation (firstn 3 (Scenario.rescheduleTurns
                                               Scenario.backendRejecting)))
                    (Scenario.says Scenario.backendRejecting "at 10:30 please"))
             {| ro_bookingId := "APPT-20240115-0900"; ro_date := "2024-01-16";
                ro_startTime := "10:30" |}).
    vm_compute. tauto.
  - apply (proj1 (proj2 (remote_failure_resets
                    (conversation (firstn 2 (Scenario.cancelTurns
                                               Scenario.backendRejecting "plans changed")))
                    (Scenario.says Scenario.backendRejecting "plans changed")))
             {| co_bookingId := "APPT-20240115-0900";
                co_reason := Some "plans changed" |}).
    vm_compute. tauto.
Defined.

(** C7, as the code has it.  In the reason step of the cancel flow, a turn
    whose trimmed text equals "skip" in any letter case records no reason
    at all (the reason is null, in the state and in the cancel request);
    any other turn records its trimmed text verbatim. *)
Theorem cancel_reason_recorded (r : Remote) (s : ConversationState) (u : string) :
  step s = askReasonForCancel ->
  (toLowerCase (trim u) = "skip" ->
   recordsReason (handleCancelFlow r s u) s None) /\
  (toLowerCase (trim u) <> "skip" ->
   recordsReason (handleCancelFlow r s u) s (Some (trim u))).
Proof.
  intros Hs. unfold recordsReason, handleCancelFlow. rewrite Hs.
  rewrite andb_false_r. cbn [step_eqb].
  split; intros Hu.
  - rewrite Hu. cbn [String.eqb Ascii.eqb Bool.eqb andb].
    split; [eexists; reflexivity|].
    intros o res H. break_tests; in_effects H; now injection H as <- _.
  - apply String.eqb_neq in Hu. rewrite Hu.
    split; [eexists; reflexivity|].
    intros o res H. break_tests; in_effects H; now injection H as <- _.
Qed.

Lemma cancel_reason_recorded_witness :
  recordsReason
    (handleCancelFlow Scenario.backendUp (state Scenario.cancelAsked) "  Skip ")
    (state Scenario.cancelAsked) None
  /\
  recordsReason
    (handleCancelFlow Scenario.backendUp (state Scenario.cancelAsked) " skip it ")
    (state Scenario.cancelAsked) (Some "skip it").
Proof.
  split.
  - refine (proj1 (cancel_reason_recorded Scenario.backendUp
                     (state Scenario.cancelAsked) "  Skip " _) _);
      vm_compute; reflexivity.
  - refine (proj2 (cancel_reason_recorded Scenario.backendUp
                     (state Scenario.cancelAsked) " skip it " _) _);
      vm_compute; [reflexivity | discriminate].
Defined.

(** C7 as stated fails: after "skip" the reason that is recorded and sent
    with the cancel request is null, not the text "no reason given". *)
Lemma skip_reason_counterexample :
  let before := Scenario.cancelAsked in
  let after := conversation (Scenario.cancelTurns Scenario.backendUp "skip") in
  step (state before) = askReasonForCancel /\
  In (await (cancelCall
               {| co_bookingId := "APPT-20240115-0900"; co_reason := None |}
               (Some {| cr_booking_id := "APPT-20240115-0900";
                        cr_status := "cancelled" |})))
     (effectsOf before (Scenario.says Scenario.backendUp "skip")) /\
  reason (state after) = None /\
  reason (state after) <> Some "no reason given" /\
  ~ recordsReason
      (handleCancelFlow Scenario.backendUp (state before) "skip")
      (state before) (Some "no reason given").
Proof.
  cbv zeta. repeat split; try (vm_compute; tauto); try discriminate.
  intros [[rest E] _]. vm_compute in E. discriminate E.
Qed.

Section SlotInvariant.

Variable r : Remote.

Lemma parseSlotSelection_In (u : string) (sl : list AvailabilitySlot)
      (slot : AvailabilitySlot) :
  parseSlotSelection u sl = Some slot -> In slot sl.
Proof.
  unfold parseSlotSelection, findByTime. intros H.
  destruct sl as [|s0 rest] eqn:Es; [discriminate|]. rewrite <- Es in *.
  break_tests; try discriminate.
  all: try (injection H as <-; eapply nth_error_In; eassumption).
  all: apply find_some in H; tauto.
Qed.

Lemma slotInvariant_initial : slotInvariant createInitialState.
Proof. intros slot H. discriminate H. Qed.

(** Closes a goal [slotInvariant s'] for a state [s'] built from fields
    of a state that satisfies the invariant by hypothesis [Hs]. *)
Ltac keeps_invariant Hs :=
  unfold slotInvariant in *; cbn in *;
  let slot := fresh "slot" in
  let Hsel := fresh "Hsel" in
  intros slot Hsel;
  try discriminate Hsel;
  try solve [auto];
  try (destruct (Hs _ Hsel) as [_ Ht]; cbn in *; rewrite Ht in *; discriminate).

Lemma booking_preserves (s : ConversationState) (u : string) (c : Component) :
  slotInvariant s -> slotInvariant (state c) ->
  slotInvariant (state (applyEffects c (handleBookingFlow r s u))).
Proof.
  intros Hs Hc. unfold handleBookingFlow.
  destruct s as [i st ty d sl sel pn pe pp rs bid].
  break_tests; cbn; try assumption; keeps_invariant Hs;
    (injection Hsel as <-; split;
     [eapply parseSlotSelection_In; eassumption
     | destruct (truthy d); [reflexivity | discriminate]]).
Qed.

Lemma reschedule_preserves (s : ConversationState) (u : string) (c : Component) :
  slotInvariant s -> slotInvariant (state c) ->
  slotInvariant (state (applyEffects c (handleRescheduleFlow r s u))).
Proof.
  intros Hs Hc. unfold handleRescheduleFlow.
  destruct s as [i st ty d sl sel pn pe pp rs bid].
  break_tests; cbn; try assumption; keeps_invariant Hs.
Qed.

Lemma cancel_preserves (s : ConversationState) (u : string) (c : Component) :
  slotInvariant s -> slotInvariant (state c) ->
  slotInvariant (state (applyEffects c (handleCancelFlow r s u))).
Proof.
  intros Hs Hc. unfold handleCancelFlow.
  destruct s as [i st ty d sl sel pn pe pp rs bid].
  break_tests; cbn; try assumption; keeps_invariant Hs.
Qed.

(** A turn that receives an availability answer stores exactly the slots
    retained from it, and no slot is selected at that point. *)
Lemma booking_fetch_overwrites (s : ConversationState) (u : string)
      (c : Component) (d : string) (ty : AppointmentTypeConfig)
      (fetched : list AvailabilitySlot) :
  slotInvariant s ->
  In (await (availabilityCall d ty (Some fetched))) (handleBookingFlow r s u) ->
  slots (state (applyEffects c (handleBookingFlow r s u))) = retained fetched /\
  selectedSlot (state (applyEffects c (handleBookingFlow r s u))) = None.
Proof.
  intros Hs. unfold handleBookingFlow, retained.
  destruct s as [i st ty0 d0 sl sel pn pe pp rs bid].
  intros H. break_tests; in_effects H;
    injection H as -> -> ->; cbn in *;
    (split;
     [ congruence
     | destruct sel as [x|];
       [ destruct (Hs x eq_refl) as [_ Ht]; cbn in Ht; rewrite Ht in *;
         discriminate
       | reflexivity ] ]).
Qed.

End SlotInvariant.

Section Conversation.

Lemma submit_preserves (c : Component) (t : Turn) :
  slotInvariant (state c) -> slotInvariant (state (submit c t)).
Proof.
  intros Hc. unfold submit, effectsOf, handleSubmit.
  break_tests; repeat rewrite applyEffects_cons;
    first [ apply booking_preserves | apply reschedule_preserves
          | apply cancel_preserves | idtac ];
    cbn; first [ assumption | intros ? H; discriminate H ].
Qed.

Lemma turns_preserve (ts : list Turn) (c : Component) :
  slotInvariant (state c) -> slotInvariant (state (fold_left submit ts c)).
Proof.
  revert c; induction ts as [|t ts IH]; intros c Hc; cbn [fold_left];
    [assumption | now apply IH, submit_preserves].
Qed.

Lemma conversation_invariant (ts : list Turn) :
  slotInvariant (state (conversation ts)).
Proof. apply turns_preserve, slotInvariant_initial. Qed.

(** Every handler that sets the busy flag clears it before it returns, so
    no turn of a conversation is dropped for arriving while busy. *)
Lemma submit_not_busy (c : Component) (t : Turn) :
  isBusy c = false -> isBusy (submit c t) = false.
Proof.
  intros Hc. unfold submit, effectsOf, handleSubmit, handleBookingFlow,
    handleRescheduleFlow, handleCancelFlow.
  break_tests; cbn; try reflexivity; assumption.
Qed.

Lemma conversation_not_busy (ts : list Turn) : isBusy (conversation ts) = false.
Proof.
  unfold conversation.
  assert (H : isBusy initialComponent = false) by reflexivity.
  revert H. generalize initialComponent.
  induction ts as [|t ts IH]; intros c Hc; cbn [fold_left];
    [assumption | now apply IH, submit_not_busy].
Qed.

Lemma submit_fetch_overwrites (c : Component) (t : Turn) (d : string)
      (ty : AppointmentTypeConfig) (fetched : list AvailabilitySlot) :
  slotInvariant (state c) ->
  In (await (availabilityCall d ty (Some fetched))) (effectsOf c t) ->
  slots (state (submit c t)) = retained fetched /\
  selectedSlot (state (submit c t)) = None.
Proof.
  intros Hc H. routed H;
    solve [ apply reschedule_calls in H; contradiction
          | apply cancel_calls in H; contradiction
          | eapply booking_fetch_overwrites; eassumption ].
Qed.

End Conversation.



Section LatestQuery.

Variable r : Remote.

Lemma booking_slotsFromLastQuery (s : ConversationState) (u : string)
      (c : Component) (last : option RemoteCall) :
  slotsFromLastQuery last s -> slotsFromLastQuery last (state c) ->
  slotsFromLastQuery
    (match queryOf (handleBookingFlow r s u) with
     | Some q => Some q
     | None => last
     end)
    (state (applyEffects c (handleBookingFlow r s u))).
Proof.
  intros Hs Hc. unfold handleBookingFlow.
  destruct s as [i st ty d sl sel pn pe pp rs bid].
  unfold slotsFromLastQuery, retained in *.
  cbn [intent step appointmentType date slots selectedSlot patientName
       patientEmail patientPhone reason bookingId set_intent set_step] in *.
  break_tests; cbn -[firstn filter] in *; try discriminate; try assumption.
  all: destruct Hs as [Hs1 Hs2].
  all: repeat match goal with
         | H : Some _ = Some _ |- _ => inversion H; subst; clear H
         | H : None = None |- _ => clear H
         end.
  all: try (assert (E0 : sl = [])
              by (apply Hs1; destruct (truthy d); [discriminate | reflexivity]);
            subst sl).
  all: split;
    [ intros;
      first [ reflexivity | discriminate | now auto
            | match goal with
              | Hn : nonEmpty _ = Some _ |- _ =>
                  apply nonEmpty_Some in Hn as [Hn1 Hn2];
                  rewrite Hn1 in Hn2; cbn in Hn2; congruence
              end ]
    | intros Hne;
      first [ now elim Hne
            | destruct (Hs2 Hne) as (d0 & ty0 & f & E1 & E2 & E3 & E4);
              subst; first [ discriminate | now eauto 10 ]
            | eexists _, _, _; repeat split; symmetry; eassumption ] ].
Qed.

Lemma reschedule_slotsFromLastQuery (s : ConversationState) (u : string)
      (c : Component) (last : option RemoteCall) :
  slotsFromLastQuery last s -> slotsFromLastQuery last (state c) ->
  queryOf (handleRescheduleFlow r s u) = None /\
  slotsFromLastQuery last (state (applyEffects c (handleRescheduleFlow r s u))).
Proof.
  intros Hs Hc. unfold handleRescheduleFlow.
  destruct s as [i st ty d sl sel pn pe pp rs bid].
  unfold slotsFromLastQuery in *.
  cbn [intent step appointmentType date slots selectedSlot patientName
       patientEmail patientPhone reason bookingId set_intent set_step] in *.
  break_tests; cbn in *; (split; [reflexivity|]); try assumption;
    try (split; [auto | intros X; now elim X]).
  all: destruct Hs as [Hs1 Hs2].
  all: try (assert (E0 : sl = [])
              by (apply Hs1; destruct (truthy d); [discriminate | reflexivity]);
            subst sl).
  all: split; [ reflexivity | intros X; now elim X ].
Qed.

Lemma cancel_slotsFromLastQuery (s : ConversationState) (u : string)
      (c : Component) (last : option RemoteCall) :
  slotsFromLastQuery last s -> slotsFromLastQuery last (state c) ->
  queryOf (handleCancelFlow r s u) = None /\
  slotsFromLastQuery last (state (applyEffects c (handleCancelFlow r s u))).
Proof.
  intros Hs Hc. unfold handleCancelFlow.
  destruct s as [i st ty d sl sel pn pe pp rs bid].
  unfold slotsFromLastQuery in *.
  cbn [intent step appointmentType date slots selectedSlot patientName
       patientEmail patientPhone reason bookingId set_intent set_step] in *.
  break_tests; cbn in *; (split; [reflexivity|]); try assumption;
    try (split; [auto | intros X; now elim X]).
Qed.

End LatestQuery.

Lemma slotsFromLastQuery_empty (last : option RemoteCall)
      (s : ConversationState) :
  slots s = [] -> slotsFromLastQuery last s.
Proof. intros E. split; [auto | intros H; now elim H]. Qed.

Lemma submit_slotsFromLastQuery (c : Component) (t : Turn)
      (last : option RemoteCall) :
  slotsFromLastQuery last (state c) ->
  slotsFromLastQuery
    (match queryOf (effectsOf c t) with Some q => Some q | None => last end)
    (state (submit c t)).
Proof.
  intros Hc. unfold submit, effectsOf, handleSubmit.
  destruct (negb (truthy (Some (trim (input t)))) || isBusy c);
    [exact Hc|].
  cbn [queryOf]. rewrite !applyEffects_cons.
  destruct (step_eqb (step (state c)) idle || step_eqb (step (state c)) askIntent).
  - destruct (detectIntent (trim (input t))); cbn [queryOf].
    + rewrite applyEffects_cons.
      apply booking_slotsFromLastQuery;
        [exact Hc | now apply slotsFromLastQuery_empty].
    + now apply slotsFromLastQuery_empty.
    + now apply slotsFromLastQuery_empty.
  - repeat match goal with
      | |- context [if ?b then _ else _] => destruct b
      end;
      first [ now apply booking_slotsFromLastQuery
            | match goal with
              | |- context [handleRescheduleFlow ?r ?s ?u] =>
                  destruct (reschedule_slotsFromLastQuery r s u
                              (applyEffect
                                 (applyEffect c (appendUserMessage u))
                                 (setInput EmptyString))
                              last Hc Hc) as [Q S];
                  rewrite Q; exact S
              | |- context [handleCancelFlow ?r ?s ?u] =>
                  destruct (cancel_slotsFromLastQuery r s u
                              (applyEffect
                                 (applyEffect c (appendUserMessage u))
                                 (setInput EmptyString))
                              last Hc Hc) as [Q S];
                  rewrite Q; exact S
              end ].
Qed.

Lemma turns_slotsFromLastQuery (ts : list Turn) (c : Component)
      (last : option RemoteCall) :
  slotsFromLastQuery last (state c) ->
  slotsFromLastQuery (lastQueryFrom c last ts) (state (fold_left submit ts c)).
Proof.
  revert c last. induction ts as [|t ts IH]; intros c last Hc;
    cbn [fold_left lastQueryFrom]; [exact Hc|].
  apply IH, submit_slotsFromLastQuery, Hc.
Qed.

Lemma conversation_slotsFromLastQuery (ts : list Turn) :
  slotsFromLastQuery (lastQuery ts) (state (conversation ts)).
Proof.
  apply turns_slotsFromLastQuery, slotsFromLastQuery_empty. reflexivity.
Qed.

(** C5. The slot invariant holds of the initial state and is preserved by
    every turn, so in every state a conversation reaches a selected slot is
    an element of the slot list held in that state.  That list is the one
    most recently fetched: a turn that receives an availability answer
    overwrites the list with the slots retained from the answer, and no
    slot is selected at that point; and whenever a slot is selected, the
    most recent availability query of the conversation was answered, it
    was made for the date and the appointment type held in the state, the
    list held in the state is exactly what was retained from its answer,
    and the selected slot is one of those.  A list of an earlier query,
    or of another date, never satisfies a selection. *)
Theorem selectedSlot_from_current_slots :
  slotInvariant createInitialState /\
  (forall c t, slotInvariant (state c) -> slotInvariant (state (submit c t))) /\
  (forall ts slot,
      selectedSlot (state (conversation ts)) = Some slot ->
      In slot (slots (state (conversation ts)))) /\
  (forall ts t d ty fetched,
      In (await (availabilityCall d ty (Some fetched)))
         (effectsOf (conversation ts) t) ->
      slots (state (submit (conversation ts) t)) = retained fetched /\
      selectedSlot (state (submit (conversation ts) t)) = None) /\
  (forall ts slot,
      selectedSlot (state (conversation ts)) = Some slot ->
      exists d ty fetched,
        lastQuery ts = Some (availabilityCall d ty (Some fetched)) /\
        date (state (conversation ts)) = Some d /\
        appointmentType (state (conversation ts)) = Some ty /\
        slots (state (conversation ts)) = retained fetched /\
        In slot (retained fetched)).
Proof.
  split; [exact slotInvariant_initial|].
  split; [exact submit_preserves|].
  split; [|split].
  - intros ts slot H. now apply (conversation_invariant ts).
  - intros ts t d ty fetched H.
    eapply submit_fetch_overwrites; [apply conversation_invariant | eassumption].
  - intros ts slot H.
    destruct (conversation_invariant ts slot H) as [Hin _].
    destruct (conversation_slotsFromLastQuery ts) as [_ Hq].
    destruct Hq as (d & ty & fetched & Q & D & T & L).
    { intros E. rewrite E in Hin. destruct Hin. }
    exists d, ty, fetched. rewrite <- L. auto.
Qed.

Lemma selectedSlot_from_current_slots_witness :
  In Scenario.slot0900
     (slots (state (conversation (firstn 3 (Scenario.bookingTurns Scenario.backendUp)))))
  /\
  slots (state (conversation (firstn 2 (Scenario.bookingTurns Scenario.backendUp))))
  = retained [Scenario.slot0900; Scenario.slot0945; Scenario.slot1030]
  /\
  exists d ty fetched,
    lastQuery (firstn 3 (Scenario.bookingTurns Scenario.backendUp))
    = Some (availabilityCall d ty (Some fetched)) /\
    date (state (conversation (firstn 3 (Scenario.bookingTurns Scenario.backendUp))))
    = Some d /\
    appointmentType
      (state (conversation (firstn 3 (Scenario.bookingTurns Scenario.backendUp))))
    = Some ty /\
    slots (state (conversation (firstn 3 (Scenario.bookingTurns Scenario.backendUp))))
    = retained fetched /\
    In Scenario.slot0900 (retained fetched).
Proof.
  split; [|split].
  - apply (proj1 (proj2 (proj2 selectedSlot_from_current_slots))
             (firstn 3 (Scenario.bookingTurns Scenario.backendUp))
             Scenario.slot0900).
    vm_compute. reflexivity.
  - apply (proj1 (proj2 (proj2 (proj2 selectedSlot_from_current_slots)))
             (firstn 1 (Scenario.bookingTurns Scenario.backendUp))
             (Scenario.says Scenario.backendUp "tomorrow")
             "2024-01-15"
             {| key := physical; label := "Physical Exam"; durationMinutes := 45 |}).
    vm_compute. tauto.
  - apply (proj2 (proj2 (proj2 (proj2 selectedSlot_from_current_slots)))
             (firstn 3 (Scenario.bookingTurns Scenario.backendUp))
             Scenario.slot0900).
    vm_compute. reflexivity.
Defined.

(** C6, as the code has it.  A turn that brings a flow to its complete step
    (bookingComplete, rescheduleComplete or cancelComplete) does not reset
    the conversation state: the state after the turn differs from the
    empty initial state, holds the booking identifier that the successful
    remote call of the turn returned, and keeps the appointment type, date,
    slot list, selected slot and patient fields it had before the turn. *)
Theorem completion_keeps_state (c : Component) (t : Turn) :
  isCompleteStep (step (state c)) = false ->
  isCompleteStep (step (state (submit c t))) = true ->
  state (submit c t) <> createInitialState /\
  (exists call id,
      In (await call) (effectsOf c t) /\ returnedId call = Some id /\
      bookingId (state (submit c t)) = Some id) /\
  appointmentType (state (submit c t)) = appointmentType (state c) /\
  date (state (submit c t)) = date (state c) /\
  slots (state (submit c t)) = slots (state c) /\
  selectedSlot (state (submit c t)) = selectedSlot (state c) /\
  patientName (state (submit c t)) = patientName (state c) /\
  patientEmail (state (submit c t)) = patientEmail (state c) /\
  patientPhone (state (submit c t)) = patientPhone (state c).
Proof.
  intros Hbefore Hafter.
  split.
  { intros E. rewrite E in Hafter. discriminate Hafter. }
  revert Hafter.
  unfold submit, effectsOf, handleSubmit, handleBookingFlow,
    handleRescheduleFlow, handleCancelFlow.
  destruct c as [s busy msgs]. cbn [state isBusy messages] in *.
  break_tests; cbn; intros Hafter;
    try discriminate Hafter; try congruence;
    (split; [eexists _, _; split; [cbn; auto 12 | split; reflexivity]
            | repeat split; reflexivity]).
Qed.

Lemma completion_keeps_state_witness :
  state (submit Scenario.bookingAsked (Scenario.says Scenario.backendUp "annual checkup"))
  <> createInitialState /\
  bookingId (state (submit Scenario.bookingAsked
                      (Scenario.says Scenario.backendUp "annual checkup")))
  = Some "APPT-20240115-0900" /\
  selectedSlot (state (submit Scenario.bookingAsked
                         (Scenario.says Scenario.backendUp "annual checkup")))
  = Some Scenario.slot0900.
Proof.
  destruct (completion_keeps_state Scenario.bookingAsked
              (Scenario.says Scenario.backendUp "annual checkup"))
    as (Hne & _ & _ & _ & _ & Hsel & _);
    [vm_compute; reflexivity | vm_compute; reflexivity |].
  split; [exact Hne|].
  split; [vm_compute; reflexivity|].
  rewrite Hsel. vm_compute. reflexivity.
Defined.

(** C6 as stated fails: each flow reaches its complete step with the state
    kept, not reset to the empty initial state. *)
Lemma completion_reset_counterexample :
  let booked := state (conversation (Scenario.bookingTurns Scenario.backendUp)) in
  let moved := state (conversation (Scenario.rescheduleTurns Scenario.backendUp)) in
  let cancelled :=
    state (conversation (Scenario.cancelTurns Scenario.backendUp "skip")) in
  (step booked = bookingComplete /\ booked <> createInitialState /\
   patientName booked = Some "Jane Doe") /\
  (step moved = rescheduleComplete /\ moved <> createInitialState /\
   date moved = Some "2024-01-16") /\
  (step cancelled = cancelComplete /\ cancelled <> createInitialState /\
   bookingId cancelled = Some "APPT-20240115-0900").
Proof.
  cbv zeta. vm_compute. repeat split; try reflexivity; discriminate.
Qed.

(** C1, on the code.  For every turn whose availability query succeeds
    with no available slot, the agent reports that there is none, the step
    becomes askDate and the appointment type is kept.  The date, however,
    stays set, so the next non-empty turn is not read as a date: its text
    is stored as the patient's name (none being known yet) and the flow
    asks for the email, with the date and the slot selection as they
    were. *)
Theorem empty_answer_then_name (c : Component) (t t2 : Turn) (d : string)
      (ty : AppointmentTypeConfig) (fetched : list AvailabilitySlot) :
  In (await (availabilityCall d ty (Some fetched))) (effectsOf c t) ->
  retained fetched = [] ->
  truthy (patientName (state c)) = false ->
  truthy (Some (trim (input t2))) = true ->
  (In (appendAgentMessage sayNoSlots) (effectsOf c t) /\
   step (state (submit c t)) = askDate /\
   appointmentType (state (submit c t)) = Some ty /\
   date (state (submit c t)) = Some d) /\
  (date (state (submit (submit c t) t2)) = Some d /\
   patientName (state (submit (submit c t) t2)) = Some (trim (input t2)) /\
   step (state (submit (submit c t) t2)) = askEmail /\
   selectedSlot (state (submit (submit c t) t2)) = selectedSlot (state c)).
Proof.
  intros H E Hn Ht2.
  assert (F : In (appendAgentMessage sayNoSlots) (effectsOf c t) /\
              step (state (submit c t)) = askDate /\
              appointmentType (state (submit c t)) = Some ty /\
              date (state (submit c t)) = Some d /\
              truthy (Some d) = true /\
              slots (state (submit c t)) = [] /\
              patientName (state (submit c t)) = patientName (state c) /\
              selectedSlot (state (submit c t)) = selectedSlot (state c) /\
              isBusy (submit c t) = false).
  { clear Ht2. unfold retained in E.
    unfold submit, effectsOf, handleSubmit, handleBookingFlow,
      handleRescheduleFlow, handleCancelFlow in *.
    destruct c as [s busy msgs]. cbn [state isBusy messages] in *.
    break_tests; in_effects H; injection H as -> -> ->; try congruence;
      match goal with
      | Hd : nonEmpty _ = Some _ |- _ =>
          let Ht := fresh "Ht" in
          apply nonEmpty_Some in Hd as [Hd Ht]; rewrite Hd in Ht;
          cbn; repeat split; auto 12; try congruence; exact Ht
      end. }
  destruct F as (F1 & F2 & F3 & F4 & F5 & F6 & F7 & F8 & F9).
  split; [auto|].
  rewrite <- F8. rewrite <- F7 in Hn. clear F1 F7 F8 H E.
  generalize dependent (submit c t). intros c1 Hn F2 F3 F4 F6 F9.
  unfold submit, effectsOf, handleSubmit.
  destruct c1 as [s1 busy1 msgs1]. cbn [state isBusy messages] in *.
  subst busy1. rewrite Ht2. cbn [negb orb].
  rewrite F2. cbn [step_eqb orb]. rewrite !orb_true_r.
  unfold handleBookingFlow. rewrite trim_idem.
  destruct s1 as [i st ty1 d1 sl sel pn pe pp rs bid].
  cbn [intent step appointmentType date slots selectedSlot patientName
       patientEmail patientPhone reason bookingId] in *.
  subst.
  cbn in F5. 
  destruct i; cbn [isNull intent set_intent appointmentType date truthy negb
     selectedSlot slots List.length Nat.eqb andb patientName]; 
   rewrite ?andb_false_r, ?F5, ?Hn; cbn [negb];  rewrite ?F5, ?Hn; cbn; auto.
Qed.

Lemma empty_answer_then_name_witness :
  let asked := conversation (firstn 2 Scenario.fullDayTurns) in
  let next := conversation Scenario.fullDayTurns in
  (last (messages asked) (userSays EmptyString) = agentSays sayNoSlots /\
   step (state asked) = askDate /\
   option_map key (appointmentType (state asked)) = Some physical /\
   slots (state asked) = [] /\
   date (state asked) = Some "2024-01-15") /\
  (date (state next) = Some "2024-01-15" /\
   patientName (state next) = Some "2024-01-16" /\
   step (state next) = askEmail /\
   selectedSlot (state next) = None /\
   last (messages next) (userSays EmptyString) = agentSays sayAskEmail).
Proof.
  cbv zeta.
  destruct (empty_answer_then_name
              (conversation (firstn 1 Scenario.fullDayTurns))
              (Scenario.says Scenario.backendFull "2024-01-15")
              (Scenario.says Scenario.backendUp "2024-01-16")
              "2024-01-15"
              {| key := physical; label := "Physical Exam"; durationMinutes := 45 |}
              [Scenario.slot0945])
    as [(Hsay & Hstep & Hty & Hdate) (Hdate' & Hname & Hstep' & Hsel)];
    [ vm_compute; tauto | vm_compute; reflexivity | vm_compute; reflexivity
    | vm_compute; reflexivity | ].
  vm_compute in Hstep, Hdate, Hdate', Hname, Hstep', Hsel |- *.
  repeat split; first [ exact Hstep | exact Hdate | exact Hdate' | exact Hname
                      | exact Hstep' | exact Hsel | reflexivity ].
Defined.

(** C2, on the code.  For every turn whose book call is rejected, the agent
    reports the failure, the step becomes askDate and the appointment type
    is kept.  The selected slot is kept as well, with the date and every
    other answer; from that state no turn changes the state or gets a
    reply. *)
Theorem failed_booking_dead_end (c : Component) (t : Turn) (o : BookOptions) :
  In (await (bookCall o None)) (effectsOf c t) ->
  (In (appendAgentMessage sayBookingFailed) (effectsOf c t) /\
   step (state (submit c t)) = askDate /\
   appointmentType (state (submit c t)) = Some (bo_appointmentType o) /\
   date (state (submit c t)) = Some (bo_date o) /\
   selectedSlot (state (submit c t)) = Some (bo_slot o)) /\
  (forall t2,
      state (submit (submit c t) t2) = state (submit c t) /\
      forall m, ~ In (appendAgentMessage m) (effectsOf (submit c t) t2)).
Proof.
  intros H.
  assert (F : In (appendAgentMessage sayBookingFailed) (effectsOf c t) /\
              step (state (submit c t)) = askDate /\
              appointmentType (state (submit c t)) = Some (bo_appointmentType o) /\
              date (state (submit c t)) = Some (bo_date o) /\
              selectedSlot (state (submit c t)) = Some (bo_slot o) /\
              truthy (date (state (submit c t))) = true /\
              truthy (patientName (state (submit c t))) = true /\
              truthy (patientEmail (state (submit c t))) = true /\
              truthy (patientPhone (state (submit c t))) = true /\
              truthy (reason (state (submit c t))) = true /\
              isBusy (submit c t) = false).
  { unfold submit, effectsOf, handleSubmit, handleBookingFlow,
      handleRescheduleFlow, handleCancelFlow in *.
    destruct c as [s busy msgs]. cbn [state isBusy messages] in *.
    break_tests; in_effects H; injection H as <-;
      repeat match goal with
        | Hd : nonEmpty _ = Some _ |- _ => apply nonEmpty_Some in Hd as [? ?]
        end;
      match goal with
      | Hb : negb (truthy (Some (trim ?x))) || _ = false |- _ =>
          apply orb_false_iff in Hb as [Hb _]; apply negb_false_iff in Hb
      end;
      cbn [state applyEffects fold_left applyEffect isBusy set_step set_reason
           step appointmentType date selectedSlot patientName patientEmail
           patientPhone reason bo_appointmentType bo_date bo_slot set_intent];
      rewrite ?trim_idem; repeat split;
      first [ assumption | reflexivity | solve [cbn [In]; intuition] ]. }
  destruct F as (F1 & F2 & F3 & F4 & F5 & F6 & F7 & F8 & F9 & F10 & F11).
  split; [auto|]. clear H F1.
  generalize dependent (submit c t). intros c1 F2 F3 F4 F5 F6 F7 F8 F9 F10 F11 t2.
  unfold submit, effectsOf, handleSubmit, handleBookingFlow.
  destruct c1 as [s1 busy1 msgs1]. cbn [state isBusy messages] in *.
  subst busy1. rewrite F2. cbn [step_eqb orb]. rewrite !orb_true_r.
  destruct (negb (truthy (Some (trim (input t2)))) || false);
    [split; [reflexivity | intros m []]|].
  destruct s1 as [i st ty1 d1 sl sel pn pe pp rs bid].
  cbn [intent step appointmentType date slots selectedSlot patientName
       patientEmail patientPhone reason bookingId] in *.
  subst.
  destruct i;
    cbn [isNull intent set_intent appointmentType date selectedSlot slots
         patientName patientEmail patientPhone reason andb];
    rewrite F6, F7, F8, F9, F10; cbn;
    (split; [reflexivity | intros m H; in_effects H]).
Qed.

Lemma failed_booking_dead_end_witness :
  let failed := conversation (Scenario.bookingTurns Scenario.backendRejecting) in
  let again := Scenario.says Scenario.backendUp "2024-01-16" in
  (last (messages failed) (userSays EmptyString) = agentSays sayBookingFailed /\
   step (state failed) = askDate /\
   option_map key (appointmentType (state failed)) = Some physical) /\
  (selectedSlot (state failed) = Some Scenario.slot0900 /\
   date (state failed) = Some "2024-01-15") /\
  (effectsOf failed again = [appendUserMessage "2024-01-16"; setInput EmptyString] /\
   state (submit failed again) = state failed).
Proof.
  cbv zeta.
  destruct (failed_booking_dead_end
              Scenario.bookingAsked
              (Scenario.says Scenario.backendRejecting "annual checkup")
              {| bo_appointmentType :=
                   {| key := physical; label := "Physical Exam";
                      durationMinutes := 45 |};
                 bo_date := "2024-01-15"; bo_slot := Scenario.slot0900;
                 bo_name := "Jane Doe"; bo_email := "jane@example.com";
                 bo_phone := "555-0100"; bo_reason := Some "annual checkup" |})
    as [(_ & Hstep & _ & Hdate & Hsel) Hstuck];
    [vm_compute; tauto |].
  destruct (Hstuck (Scenario.says Scenario.backendUp "2024-01-16"))
    as [Hsame _].
  vm_compute in Hstep, Hdate, Hsel, Hsame |- *.
  repeat split; first [ exact Hstep | exact Hdate | exact Hsel | exact Hsame
                      | reflexivity ].
Defined.

(** C4, evaluated on the code.  When the availability answer holds no
    available slot, or the availability query is rejected, the user's next
    four answers are taken as name, email, phone and reason; the confirm
    step is then entered with no slot selected, its guard fires, and the
    conversation is reset. *)
Theorem confirm_guard_reached :
  forall r, r = Scenario.backendFull \/ r = Scenario.backendDown ->
  let turns := Scenario.keepAnsweringTurns r in
  let asked := conversation (firstn 5 turns) in
  step (state asked) = askReason /\
  selectedSlot (state asked) = None /\
  In (setState (set_step confirmingBooking
                  (set_reason (Some "annual checkup") (state asked))))
     (effectsOf asked (Scenario.says Scenario.backendUp "annual checkup")) /\
  In (appendAgentMessage sayBookingMissingInfo)
     (effectsOf asked (Scenario.says Scenario.backendUp "annual checkup")) /\
  state (conversation turns) = createInitialState.
Proof.
  intros r [-> | ->]; cbv zeta; vm_compute; repeat split; tauto.
Qed.

Lemma confirm_guard_reached_witness :
  state (conversation (Scenario.keepAnsweringTurns Scenario.backendFull))
  = createInitialState /\
  state (conversation (Scenario.keepAnsweringTurns Scenario.backendDown))
  = createInitialState.
Proof.
  split.
  - apply (confirm_guard_reached Scenario.backendFull). left. reflexivity.
  - apply (confirm_guard_reached Scenario.backendDown). right. reflexivity.
Defined.

(** * Further properties of the page and of the mock routes *)

(** ** The extractors: what they return *)

Section Extractors.

Lemma digit_is_word (c : ascii) : isDigit c = true -> isWordChar c = true.
Proof. unfold isWordChar. now intros ->. Qed.



Lemma isoMatch_literal (d : string) :
  Routes.isoDateShape d = true -> isoMatch d = Some d.
Proof.
  unfold Routes.isoDateShape, isoMatch.
  destruct d as [|y1 [|y2 [|y3 [|y4 [|d1 [|m1 [|m2 [|d2 [|a1 [|a2 [|x rest]]]]]]]]]]];
    try discriminate.
  intros H. cbn [isoScan isoAt]. rewrite H.
  do 9 (apply andb_true_iff in H as [H ?]).
  unfold wordBoundary. cbn [isWordOpt head].
  rewrite (digit_is_word y1), (digit_is_word a2) by assumption.
  reflexivity.
Qed.

End Extractors.

(** X1. A date written as YYYY-MM-DD, and nothing else, is returned as it
    is, whatever the clock says and whether or not it is a real calendar
    date. *)
Theorem normalizeDate_literal_identity (clock : Clock) (d : string) :
  Routes.isoDateShape d = true -> normalizeDateFromInput clock d = Some d.
Proof.
  intros H. unfold normalizeDateFromInput. now rewrite (isoMatch_literal d H).
Qed.

Lemma normalizeDate_literal_identity_witness :
  normalizeDateFromInput Scenario.clock0 "2024-13-45" = Some "2024-13-45".
Proof.
  apply (normalizeDate_literal_identity Scenario.clock0 "2024-13-45").
  reflexivity.
Defined.




Section TimeLiterals.

Lemma minutesAt_shape (s t : string) :
  minutesAt s = Some t ->
  exists m1 m2 rest,
    t = String ":" (String m1 (String m2 EmptyString)) /\ s = t ++ rest /\
    between 48 53 m1 = true /\ isDigit m2 = true.
Proof.
  unfold minutesAt. destruct s as [|c [|m1 [|m2 rest]]]; try discriminate.
  destruct (Ascii.eqb_spec c ":") as [->|]; [|discriminate]. cbn [andb].
  destruct (between 48 53 m1) eqn:E1; [|discriminate].
  destruct (isDigit m2) eqn:E2; [|discriminate]. cbn [andb].
  destruct (wordBoundary (Some m2) (head rest)); [|discriminate].
  intros [= <-]. now exists m1, m2, rest.
Qed.

Lemma timeAt_valid (s m : string) :
  timeAt s = Some m ->
  Routes.isValidTime (padStart0 5 m) = true /\ exists rest, s = m ++ rest.
Proof.
  unfold timeAt, orElse.
  destruct s as [|h1 [|h2 r]]; try discriminate.
  - destruct (isDigit h1); discriminate.
  - destruct (between 48 49 h1 && isDigit h2) eqn:A.
    + destruct (minutesAt r) as [t|] eqn:E1; cbn [option_map].
      * intros [= <-].
        destruct (minutesAt_shape _ _ E1) as (m1 & m2 & rest & -> & -> & B1 & B2).
        split; [|now exists rest].
        cbn. now rewrite A, B1, B2.
      * destruct (isDigit h1) eqn:D1; [|].
        -- destruct (minutesAt (String h2 r)) as [t|] eqn:E2; cbn [option_map].
           ++ intros [= <-].
              destruct (minutesAt_shape _ _ E2) as (m1 & m2 & rest & -> & E & B1 & B2).
              split; [|exists rest; now rewrite E].
              cbn. now rewrite D1, B1, B2.
           ++ destruct ((h1 =? "2")%char && between 48 51 h2); discriminate.
        -- destruct ((h1 =? "2")%char && between 48 51 h2); discriminate.
    + destruct (isDigit h1) eqn:D1.
      * destruct (minutesAt (String h2 r)) as [t|] eqn:E2; cbn [option_map].
        -- intros [= <-].
           destruct (minutesAt_shape _ _ E2) as (m1 & m2 & rest & -> & E & B1 & B2).
           split; [|exists rest; now rewrite E].
           cbn. now rewrite D1, B1, B2.
        -- destruct ((h1 =? "2")%char && between 48 51 h2) eqn:C; [|discriminate].
           destruct (minutesAt r) as [t|] eqn:E3; cbn [option_map]; [|discriminate].
           intros [= <-].
           destruct (minutesAt_shape _ _ E3) as (m1 & m2 & rest & -> & -> & B1 & B2).
           split; [|now exists rest].
           cbn. rewrite C, B1, B2. now rewrite orb_true_r.
      * destruct ((h1 =? "2")%char && between 48 51 h2) eqn:C; [|discriminate].
        destruct (minutesAt r) as [t|] eqn:E3; cbn [option_map]; [|discriminate].
        intros [= <-].
        destruct (minutesAt_shape _ _ E3) as (m1 & m2 & rest & -> & -> & B1 & B2).
        split; [|now exists rest].
        cbn. rewrite C, B1, B2. now rewrite orb_true_r.
Qed.

Lemma timeScan_valid (s m : string) (before : option ascii) :
  timeScan before s = Some m ->
  Routes.isValidTime (padStart0 5 m) = true /\ Props.occursIn m s.
Proof.
  revert before; induction s as [|c r IH]; intros before; cbn [timeScan];
    [discriminate|].
  destruct (if wordBoundary before (Some c) then timeAt (String c r) else None)
    as [m'|] eqn:E.
  - intros [= <-]. destruct (wordBoundary before (Some c)); [|discriminate].
    apply timeAt_valid in E as [Hv [rest Hr]].
    split; [exact Hv|]. exists EmptyString, rest. exact Hr.
  - intros H. apply IH in H as [Hv (pre & post & ->)].
    split; [exact Hv|]. now exists (String c pre), post.
Qed.

Lemma timeMatch_valid_helper (input m : string) :
  timeMatch input = Some m -> Routes.isValidTime (padStart0 5 m) = true.
Proof. intros H. now apply timeScan_valid in H. Qed.

End TimeLiterals.

(** X3. A time literal found in a turn is a piece of the turn's text and,
    once left-padded to five characters as the page does, always has the
    form HH:mm that the book and reschedule routes accept. *)
Theorem timeMatch_padded_is_valid (input m : string) :
  timeMatch input = Some m ->
  Props.occursIn m input /\ Routes.isValidTime (padStart0 5 m) = true.
Proof.
  intros H. apply timeScan_valid in H. tauto.
Qed.

Lemma timeMatch_padded_is_valid_witness :
  Props.occursIn "9:05" "at 9:05 please" /\
  Routes.isValidTime (padStart0 5 "9:05") = true.
Proof.
  apply (timeMatch_padded_is_valid "at 9:05 please" "9:05"). reflexivity.
Defined.

(** X4. When the trimmed turn is not a run of digits, a slot is selected
    only through a time literal: the slot returned is in the list, is
    available, starts at the literal's time (left-padded), and is the
    first such slot of the list.  An unavailable slot is never selected
    this way. *)
Theorem parseSlotSelection_by_time (input : string)
        (slots : list AvailabilitySlot) (slot : AvailabilitySlot) :
  numericMatch (trim input) = None ->
  parseSlotSelection input slots = Some slot ->
  exists m,
    timeMatch input = Some m /\
    start_time slot = padStart0 5 m /\ available slot = true /\
    exists before after,
      slots = (before ++ slot :: after)%list /\
      forall other, In other before ->
        start_time other = padStart0 5 m -> available other = false.
Proof.
  intros Hn. unfold parseSlotSelection, findByTime. rewrite Hn.
  destruct slots as [|s0 rest] eqn:Es; [discriminate|]. rewrite <- Es. clear Es.
  destruct (timeMatch input) as [m|]; [|discriminate].
  intros H. exists m. split; [reflexivity|].
  induction slots as [|x l IH]; [discriminate|].
  cbn [find] in H.
  destruct ((start_time x =? padStart0 5 m) && available x) eqn:E.
  - injection H as <-. apply andb_true_iff in E as [E1 E2].
    apply String.eqb_eq in E1.
    repeat split; trivial. exists [], l. split; [reflexivity|]. intros ? [].
  - destruct (IH H) as (Hs & Ha & before & after & -> & Hb).
    repeat split; trivial. exists (x :: before), after.
    split; [reflexivity|].
    intros other [<-|Hin] Ht; [|now apply Hb].
    apply String.eqb_eq in Ht. rewrite Ht in E. exact E.
Qed.

Lemma parseSlotSelection_by_time_witness :
  exists m,
    timeMatch "10:30 is best" = Some m /\
    start_time Scenario.slot1030 = padStart0 5 m /\
    available Scenario.slot1030 = true /\
    exists before after,
      [Scenario.slot0900; Scenario.slot0945; Scenario.slot1030]
      = (before ++ Scenario.slot1030 :: after)%list /\
      forall other, In other before ->
        start_time other = padStart0 5 m -> available other = false.
Proof.
  apply (parseSlotSelection_by_time "10:30 is best"
           [Scenario.slot0900; Scenario.slot0945; Scenario.slot1030]
           Scenario.slot1030); reflexivity.
Defined.


(** ** Turns: what every turn does and never does *)

Section Turns.

Lemma retained_offered (fetched : list AvailabilitySlot) :
  Forall (fun slot => available slot = true) (retained fetched)
  /\ List.length (retained fetched) <= 5.
Proof.
  unfold retained. split.
  - apply Forall_forall. intros x Hx.
    apply (In_nth_error) in Hx as [n Hn].
    assert (Hin : In x (filter available fetched)).
    { apply nth_error_In with (n := n).
      rewrite nth_error_firstn in Hn.
      destruct (Nat.ltb n 5); [exact Hn | discriminate]. }
    apply filter_In in Hin. tauto.
  - rewrite length_firstn. lia.
Qed.

Lemma submit_offered (c : Component) (t : Turn) :
  Props.offered (state c) -> Props.offered (state (submit c t)).
Proof.
  intros Hc.
  assert (E : Props.offered createInitialState) by (split; [constructor | simpl; lia]).
  unfold submit, effectsOf, handleSubmit, handleBookingFlow,
    handleRescheduleFlow, handleCancelFlow.
  destruct c as [s busy msgs]. cbn [state isBusy messages] in *.
  break_tests; cbn; try assumption; try exact E;
    unfold Props.offered in *; cbn; try assumption;
    try (split; [constructor | simpl; lia]);
    match goal with
    | H : firstn 5 (filter available ?l) = _ |- _ =>
        let R := fresh "R" in
        pose proof (retained_offered l) as R; unfold retained in R;
        rewrite H in R; exact R
    end.
Qed.

Lemma conversation_offered (ts : list Turn) : Props.offered (state (conversation ts)).
Proof.
  unfold conversation.
  assert (H : Props.offered (state initialComponent))
    by (split; [constructor | simpl; lia]).
  revert H. generalize initialComponent.
  induction ts as [|t ts IH]; intros c Hc; cbn [fold_left];
    [assumption | now apply IH, submit_offered].
Qed.

Lemma blank_trim (s : string) : Props.blank s <-> trim s = EmptyString.
Proof.
  split.
  - intros H. unfold trim.
    assert (E : trimStart s = EmptyString).
    { induction s as [|c r IH]; [reflexivity|]. cbn [trimStart].
      rewrite (H c) by (now left). apply IH. intros x Hx. apply H. now right. }
    now rewrite E.
  - intros H c Hc. destruct (trim_occurs s c Hc) as [Hw|Ho]; [exact Hw|].
    rewrite H in Ho. destruct Ho.
Qed.

Lemma messages_applyEffects (es : list Effect) (c : Component) :
  messages (applyEffects c es)
  = (messages c
     ++ flat_map (fun e => match e with
                           | appendUserMessage u => [userSays u]
                           | appendAgentMessage m => [agentSays m]
                           | _ => []
                           end) es)%list.
Proof.
  revert c; induction es as [|e es IH]; intros c.
  - cbn. now rewrite app_nil_r.
  - rewrite applyEffects_cons, IH. cbn [flat_map].
    destruct e; cbn; rewrite <- ?app_assoc; reflexivity.
Qed.

End Turns.

(** X5. In every state a conversation reaches, the slot list holds at most
    five slots, all of them available, and the selected slot, when there
    is one, is available: the ordinal a user types can never pick a slot
    the backend marked unavailable. *)
Theorem offered_slots_are_available (ts : list Turn) :
  List.length (slots (state (conversation ts))) <= 5 /\
  (forall slot, In slot (slots (state (conversation ts))) ->
                available slot = true) /\
  (forall slot, selectedSlot (state (conversation ts)) = Some slot ->
                available slot = true).
Proof.
  destruct (conversation_offered ts) as [Ha Hl].
  rewrite Forall_forall in Ha.
  repeat split; auto.
  intros slot Hs. apply Ha. now apply (conversation_invariant ts).
Qed.

Lemma offered_slots_are_available_witness :
  available Scenario.slot0900 = true.
Proof.
  apply (proj2 (proj2 (offered_slots_are_available
                         (firstn 3 (Scenario.bookingTurns Scenario.backendUp))))).
  vm_compute. reflexivity.
Defined.

(** X6. A submission has no effect at all exactly when the component is
    busy or the text is blank (empty, or white space only); every other
    submission begins by appending the user's trimmed text to the
    transcript. *)
Theorem blank_or_busy_is_ignored (c : Component) (t : Turn) :
  (effectsOf c t = [] <-> isBusy c = true \/ Props.blank (input t)) /\
  (effectsOf c t <> [] ->
   exists rest,
     effectsOf c t = appendUserMessage (trim (input t)) :: setInput EmptyString :: rest).
Proof.
  unfold effectsOf, handleSubmit. rewrite blank_trim.
  destruct (trim (input t)) as [|x r] eqn:E; cbn [truthy negb orb].
  - split; [|intros H; now elim H]. split; auto.
  - destruct (isBusy c); cbn [orb].
    + split; [|intros H; now elim H]. split; auto.
    + split.
      * split; [discriminate | intros [H|H]; discriminate H].
      * intros _. eexists. reflexivity.
Qed.

Lemma blank_or_busy_is_ignored_witness :
  effectsOf initialComponent (Scenario.says Scenario.backendUp "   ") = [].
Proof.
  apply (proj1 (blank_or_busy_is_ignored initialComponent
                  (Scenario.says Scenario.backendUp "   "))).
  right. apply blank_trim. reflexivity.
Defined.

(** X7. Past the first turn, a turn that is answered with a request to
    repeat (date not understood, slot not matched, time not read, booking
    id missing) leaves the conversation state exactly as it was. *)
Theorem reprompt_keeps_state (c : Component) (t : Turn) (m : AgentMessage) :
  Props.inFlow (state c) = true ->
  Props.isReprompt m = true ->
  In (appendAgentMessage m) (effectsOf c t) ->
  state (submit c t) = state c.
Proof.
  unfold Props.inFlow. intros Hf Hm.
  unfold submit, effectsOf, handleSubmit, handleBookingFlow,
    handleRescheduleFlow, handleCancelFlow.
  destruct c as [s busy msgs]. cbn [state isBusy messages] in *.
  apply negb_true_iff in Hf. rewrite Hf.
  intros H. break_tests; in_effects H; try reflexivity;
    injection H as <-; discriminate Hm.
Qed.

Lemma reprompt_keeps_state_witness :
  state (submit (conversation (firstn 1 (Scenario.bookingTurns Scenario.backendUp)))
                (Scenario.says Scenario.backendUp "next Tuesday"))
  = state (conversation (firstn 1 (Scenario.bookingTurns Scenario.backendUp))).
Proof.
  apply (reprompt_keeps_state _ _ sayBadDate);
    [vm_compute; reflexivity | reflexivity | vm_compute; tauto].
Defined.

(** X8. Past the first turn the intent cannot be changed by anything the
    user says: after a turn it is what it was, unless the turn reset the
    whole state to the empty initial state. *)
Theorem intent_is_fixed_in_flow (c : Component) (t : Turn) (i : Intent) :
  Props.inFlow (state c) = true ->
  intent (state c) = Some i ->
  intent (state (submit c t)) = Some i \/ state (submit c t) = createInitialState.
Proof.
  unfold Props.inFlow. intros Hf Hi.
  unfold submit, effectsOf, handleSubmit, handleBookingFlow,
    handleRescheduleFlow, handleCancelFlow.
  destruct c as [s busy msgs]. cbn [state isBusy messages] in *.
  apply negb_true_iff in Hf. rewrite Hf, Hi. cbn [isNull].
  break_tests; cbn; auto.
Qed.

Lemma intent_is_fixed_in_flow_witness :
  intent (state (submit (conversation (firstn 1 (Scenario.bookingTurns Scenario.backendUp)))
                        (Scenario.says Scenario.backendUp "cancel, reschedule tomorrow")))
  = Some book.
Proof.
  destruct (intent_is_fixed_in_flow
              (conversation (firstn 1 (Scenario.bookingTurns Scenario.backendUp)))
              (Scenario.says Scenario.backendUp "cancel, reschedule tomorrow") book)
    as [H|H]; [vm_compute; reflexivity | vm_compute; reflexivity | exact H |].
  vm_compute in H. discriminate H.
Defined.

(** X9. A turn makes at most one remote call; the call is awaited while
    the busy flag is set, and the flag is clear again when the turn
    ends, whether the call succeeded or failed. *)
Theorem one_call_per_turn_while_busy (c : Component) (t : Turn) :
  List.length (Props.callsOf (effectsOf c t)) <= 1 /\
  Props.callsWhileBusy false (effectsOf c t) = true.
Proof.
  unfold effectsOf, handleSubmit, handleBookingFlow,
    handleRescheduleFlow, handleCancelFlow.
  break_tests; cbn; split; try reflexivity; lia.
Qed.

(** X10. An accepted turn extends the transcript by the user's trimmed
    text followed by the agent's replies of that turn, of which there is
    at most one; nothing already in the transcript is changed. *)
Theorem transcript_grows_by_turn (c : Component) (t : Turn) :
  effectsOf c t <> [] ->
  messages (submit c t)
  = (messages c
     ++ userSays (trim (input t))
        :: map agentSays (Props.repliesOf (effectsOf c t)))%list
  /\ List.length (Props.repliesOf (effectsOf c t)) <= 1.
Proof.
  unfold submit. rewrite messages_applyEffects.
  unfold effectsOf, handleSubmit, handleBookingFlow,
    handleRescheduleFlow, handleCancelFlow.
  break_tests; cbn; intros H; try (now elim H); split; try reflexivity; lia.
Qed.

Lemma transcript_grows_by_turn_witness :
  messages (submit initialComponent (Scenario.says Scenario.backendUp " hello "))
  = [agentSays sayGreeting; userSays "hello"; agentSays sayAskType].
Proof.
  destruct (transcript_grows_by_turn initialComponent
              (Scenario.says Scenario.backendUp " hello ")) as [H _];
    [vm_compute; discriminate|].
  rewrite H. vm_compute. reflexivity.
Defined.


(** ** The mock routes *)

Section RouteFacts.

Lemma formatTime_day (m : N) :
  (m < 1440)%N -> Routes.isValidTime (Routes.Availability.formatTime m) = true.
Proof.
  intros H.
  assert (A : forallb (fun n => Routes.isValidTime
                                  (Routes.Availability.formatTime (N.of_nat n)))
                      (seq 0 1440) = true) by (vm_compute; reflexivity).
  rewrite forallb_forall in A.
  specialize (A (N.to_nat m)). rewrite N2Nat.id in A.
  apply A, in_seq. lia.
Qed.

Lemma slotCount_fits (k : AppointmentTypeKey) :
  (Routes.Availability.slotCount k * Routes.Availability.durationMinutes k <= 480)%N
  /\ (0 < Routes.Availability.durationMinutes k)%N.
Proof. destruct k; vm_compute; split; congruence. Qed.

Lemma generateSlots_In (date : string) (k : AppointmentTypeKey)
      (slot : AvailabilitySlot) :
  In slot (Routes.Availability.generateSlots date k) <->
  exists i, (i < Routes.Availability.slotCount k)%N
            /\ slot = Routes.Availability.slotAt date k i.
Proof.
  unfold Routes.Availability.generateSlots. rewrite in_map_iff. split.
  - intros (n & <- & Hn). apply in_seq in Hn. exists (N.of_nat n). split; [lia | reflexivity].
  - intros (i & Hi & ->). exists (N.to_nat i). rewrite N2Nat.id.
    split; [reflexivity | apply in_seq; lia].
Qed.

Lemma digit_not_dash (c : ascii) : isDigit c = true -> (c =? "-")%char = false.
Proof.
  intros H. destruct (Ascii.eqb_spec c "-") as [->|]; [discriminate H | reflexivity].
Qed.

Lemma digit_not_colon (c : ascii) : isDigit c = true -> (c =? ":")%char = false.
Proof.
  intros H. destruct (Ascii.eqb_spec c ":") as [->|]; [discriminate H | reflexivity].
Qed.

Lemma between_digit (lo hi : N) (c : ascii) :
  (48 <= lo)%N -> (hi <= 57)%N -> between lo hi c = true -> isDigit c = true.
Proof.
  unfold isDigit, between. intros Hl Hh H.
  apply andb_true_iff in H as [H1 H2]. apply N.leb_le in H1, H2.
  apply andb_true_iff. split; apply N.leb_le; lia.
Qed.

Lemma parseKey_keyString (k : AppointmentTypeKey) :
  Routes.parseKey (Routes.keyString k) = Some k.
Proof. destruct k; reflexivity. Qed.

Lemma isValidDate_nonEmpty (rt : Routes.Runtime) (d : string) :
  Routes.isValidDate rt d = true -> nonEmpty (Some d) = Some d.
Proof. destruct d; [discriminate | reflexivity]. Qed.

End RouteFacts.

(** X11. Every slot the availability route generates, for any date and
    appointment type, lies inside the working day: it starts at 09:00
    plus a whole number of durations, ends one duration later and not
    after 17:00, and both of its times have the form HH:mm that the
    other routes accept.  The times do not depend on the date. *)
Theorem generated_slot_in_working_day (date : string) (k : AppointmentTypeKey)
        (slot : AvailabilitySlot) :
  In slot (Routes.Availability.generateSlots date k) ->
  exists i,
    let d := Routes.Availability.durationMinutes k in
    start_time slot = Routes.Availability.formatTime (540 + i * d) /\
    end_time slot = Routes.Availability.formatTime (540 + i * d + d) /\
    (540 + i * d + d <= 1020)%N /\
    Routes.isValidTime (start_time slot) = true /\
    Routes.isValidTime (end_time slot) = true.
Proof.
  intros H. apply generateSlots_In in H as (i & Hi & ->).
  destruct (slotCount_fits k) as [Hfit Hpos].
  exists i. cbv zeta.
  assert (B : (540 + i * Routes.Availability.durationMinutes k
               + Routes.Availability.durationMinutes k <= 1020)%N) by nia.
  cbn [Routes.Availability.slotAt start_time end_time].
  change (Routes.Availability.startHour * 60)%N with 540%N.
  repeat split; trivial; apply formatTime_day; lia.
Qed.

Lemma generated_slot_in_working_day_witness :
  exists i,
    let d := Routes.Availability.durationMinutes physical in
    start_time (Routes.Availability.slotAt "2024-01-15" physical 9)
    = Routes.Availability.formatTime (540 + i * d) /\
    end_time (Routes.Availability.slotAt "2024-01-15" physical 9)
    = Routes.Availability.formatTime (540 + i * d + d) /\
    (540 + i * d + d <= 1020)%N /\
    Routes.isValidTime
      (start_time (Routes.Availability.slotAt "2024-01-15" physical 9)) = true /\
    Routes.isValidTime
      (end_time (Routes.Availability.slotAt "2024-01-15" physical 9)) = true.
Proof.
  apply (generated_slot_in_working_day "2024-01-15" physical).
  vm_compute. tauto.
Defined.

(** X12. The availability route generates, for any date, as many slots
    as whole durations fit in the eight working hours (16, 32, 10 and 8
    for the four types); the first starts at 09:00 and each one starts
    when the one before it ends. *)
Theorem generated_slots_abut (date : string) (k : AppointmentTypeKey) :
  List.length (Routes.Availability.generateSlots date k)
  = N.to_nat (480 / Routes.Availability.durationMinutes k) /\
  option_map start_time (nth_error (Routes.Availability.generateSlots date k) 0)
  = Some "09:00" /\
  (forall n a b,
      nth_error (Routes.Availability.generateSlots date k) n = Some a ->
      nth_error (Routes.Availability.generateSlots date k) (S n) = Some b ->
      end_time a = start_time b).
Proof.
  unfold Routes.Availability.generateSlots.
  split; [now rewrite length_map, length_seq|].
  split; [destruct k; reflexivity|].
  intros n a b. rewrite !nth_error_map.
  rewrite !nth_error_seq.
  destruct (Nat.ltb n _); [|discriminate].
  destruct (Nat.ltb (S n) _); [|discriminate].
  cbn [option_map]. intros [= <-] [= <-].
  cbn [Routes.Availability.slotAt start_time end_time].
  f_equal. lia.
Qed.

Lemma generated_slots_abut_witness :
  end_time (Routes.Availability.slotAt "2024-01-15" specialist 0)
  = start_time (Routes.Availability.slotAt "2024-01-15" specialist 1).
Proof.
  apply (proj2 (proj2 (generated_slots_abut "2024-01-15" specialist)) 0);
    reflexivity.
Defined.

(** X13. The booking identifier built by the book and reschedule routes
    from a date of the form YYYY-MM-DD and a time of the form HH:mm has
    eighteen characters and determines both: two requests get the same
    identifier only when they name the same date and the same time. *)
Theorem appointmentId_identifies_slot (d t d' t' : string) :
  Routes.isoDateShape d = true -> Routes.isValidTime t = true ->
  Routes.isoDateShape d' = true -> Routes.isValidTime t' = true ->
  String.length (Routes.appointmentId d t) = 18 /\
  (Routes.appointmentId d t = Routes.appointmentId d' t' -> d = d' /\ t = t').
Proof.
  unfold Routes.isoDateShape, Routes.isValidTime, Routes.appointmentId.
  destruct d as [|y1 [|y2 [|y3 [|y4 [|s1 [|m1 [|m2 [|s2 [|a1 [|a2 [|? ?]]]]]]]]]]];
    try discriminate.
  destruct t as [|h1 [|h2 [|c [|n1 [|n2 [|? ?]]]]]]; try discriminate.
  destruct d' as [|y1' [|y2' [|y3' [|y4' [|s1' [|m1' [|m2' [|s2' [|a1' [|a2' [|? ?]]]]]]]]]]];
    try discriminate.
  destruct t' as [|h1' [|h2' [|c' [|n1' [|n2' [|? ?]]]]]]; try discriminate.
  intros Hd Ht Hd' Ht'.
  do 9 (apply andb_true_iff in Hd as [Hd ?]).
  do 9 (apply andb_true_iff in Hd' as [Hd' ?]).
  do 3 (apply andb_true_iff in Ht as [Ht ?]).
  do 3 (apply andb_true_iff in Ht' as [Ht' ?]).
  assert (Dh1 : isDigit h1 = true /\ isDigit h2 = true).
  { apply orb_true_iff in Ht as [Ht|Ht]; apply andb_true_iff in Ht as [A B].
    - split; [eapply between_digit; [| |exact A]; lia | exact B].
    - apply Ascii.eqb_eq in A. subst h1.
      split; [reflexivity | eapply between_digit; [| |exact B]; lia]. }
  assert (Dh1' : isDigit h1' = true /\ isDigit h2' = true).
  { apply orb_true_iff in Ht' as [Ht'|Ht']; apply andb_true_iff in Ht' as [A B].
    - split; [eapply between_digit; [| |exact A]; lia | exact B].
    - apply Ascii.eqb_eq in A. subst h1'.
      split; [reflexivity | eapply between_digit; [| |exact B]; lia]. }
  destruct Dh1 as [? ?], Dh1' as [? ?].
  repeat match goal with
         | H : (_ =? _)%char = true |- _ => apply Ascii.eqb_eq in H; subst
         end.
  cbn [Routes.removeAll Routes.removeFirst append].
  rewrite !Ascii.eqb_refl.
  repeat match goal with
         | H : isDigit ?x = true |- _ =>
             rewrite ?(digit_not_dash x H), ?(digit_not_colon x H);
             generalize dependent H; intros _
         end.
  cbn [Routes.removeAll Routes.removeFirst append String.length].
  split; [reflexivity|].
  intros E. injection E as -> -> -> -> -> -> -> -> -> -> -> ->. split; reflexivity.
Qed.

Lemma appointmentId_identifies_slot_witness :
  String.length (Routes.appointmentId "2024-01-15" "09:00") = 18.
Proof.
  apply (appointmentId_identifies_slot "2024-01-15" "09:00" "2024-01-15" "09:00");
    reflexivity.
Defined.


(** ** The page against the mock routes *)

Section AgainstMock.

Variable rt : Routes.Runtime.

Lemma fetchAvailability_eq (date : string) (ty : AppointmentTypeConfig) :
  Client.fetchAvailability rt date ty
  = if Routes.isValidDate rt date
    then Some (Routes.Availability.generateSlots date (key ty))
    else None.
Proof.
  unfold Client.fetchAvailability, Routes.Availability.GET.
  cbn [Routes.Availability.q_date Routes.Availability.q_appointment_type].
  assert (K : nonEmpty (Some (Routes.keyString (key ty)))
              = Some (Routes.keyString (key ty))) by (destruct (key ty); reflexivity).
  rewrite K, parseKey_keyString.
  destruct date as [|c r]; [reflexivity|]. cbn [nonEmpty].
  destruct (Routes.isValidDate rt (String c r)); reflexivity.
Qed.

Lemma isValidTime_nonEmpty (t : string) :
  Routes.isValidTime t = true -> nonEmpty (Some t) = Some t.
Proof. destruct t; [discriminate | reflexivity]. Qed.

Lemma truthy_nonEmpty (x : string) :
  truthy (Some x) = true -> nonEmpty (Some x) = Some x.
Proof. destruct x; [discriminate | reflexivity]. Qed.

Lemma falsy_nonEmpty (x : string) :
  truthy (Some x) = false -> nonEmpty (Some x) = None.
Proof. destruct x; [reflexivity | discriminate]. Qed.

Lemma nonEmpty_key (k : AppointmentTypeKey) :
  nonEmpty (Some (Routes.keyString k)) = Some (Routes.keyString k).
Proof. destruct k; reflexivity. Qed.

Lemma bookAppointment_accepts (randomCode : string) (o : BookOptions) :
  Routes.isValidDate rt (bo_date o) = true ->
  Routes.isValidTime (start_time (bo_slot o)) = true ->
  truthy (Some (bo_name o)) = true -> truthy (Some (bo_email o)) = true ->
  truthy (Some (bo_phone o)) = true ->
  Client.bookAppointment rt randomCode o
  = Some {| booking_id := Routes.appointmentId (bo_date o) (start_time (bo_slot o));
            status := "confirmed";
            confirmation_code := "CONF-" ++ randomCode |}.
Proof.
  intros Hd Ht Hn He Hp.
  unfold Client.bookAppointment, Routes.Book.POST, Routes.Book.patientField.
  cbn [Routes.Book.appointment_type Routes.Book.date Routes.Book.start_time
       Routes.Book.patient Routes.Book.name Routes.Book.email Routes.Book.phone].
  rewrite nonEmpty_key, (isValidDate_nonEmpty rt _ Hd), (isValidTime_nonEmpty _ Ht),
    (truthy_nonEmpty _ Hn), (truthy_nonEmpty _ He), (truthy_nonEmpty _ Hp).
  rewrite Hd, Ht, parseKey_keyString. reflexivity.
Qed.

Lemma bookAppointment_rejects (randomCode : string) (o : BookOptions) :
  Routes.isValidDate rt (bo_date o) && Routes.isValidTime (start_time (bo_slot o))
  && truthy (Some (bo_name o)) && truthy (Some (bo_email o))
  && truthy (Some (bo_phone o)) = false ->
  Client.bookAppointment rt randomCode o = None.
Proof.
  intros H.
  unfold Client.bookAppointment, Routes.Book.POST, Routes.Book.patientField.
  cbn [Routes.Book.appointment_type Routes.Book.date Routes.Book.start_time
       Routes.Book.patient Routes.Book.name Routes.Book.email Routes.Book.phone].
  rewrite nonEmpty_key, parseKey_keyString.
  destruct (nonEmpty (Some (bo_date o))) eqn:E1; [|reflexivity].
  destruct (nonEmpty (Some (start_time (bo_slot o)))) eqn:E2; [|reflexivity].
  destruct (truthy (Some (bo_name o))) eqn:Hn;
    [rewrite (truthy_nonEmpty _ Hn) | now rewrite (falsy_nonEmpty _ Hn)].
  destruct (truthy (Some (bo_email o))) eqn:He;
    [rewrite (truthy_nonEmpty _ He) | now rewrite (falsy_nonEmpty _ He)].
  destruct (truthy (Some (bo_phone o))) eqn:Hp;
    [rewrite (truthy_nonEmpty _ Hp) | now rewrite (falsy_nonEmpty _ Hp)].
  apply nonEmpty_Some in E1 as [[= <-] _]. apply nonEmpty_Some in E2 as [[= <-] _].
  rewrite !andb_true_r in H.
  destruct (Routes.isValidDate rt (bo_date o)); [|reflexivity].
  cbn [andb negb] in *. now rewrite H.
Qed.

Lemma rescheduleAppointment_eq (o : RescheduleOptions) :
  truthy (Some (ro_bookingId o)) = true ->
  Routes.isValidTime (ro_startTime o) = true ->
  Client.rescheduleAppointment rt o
  = if Routes.isValidDate rt (ro_date o)
    then Some {| rr_booking_id := Routes.appointmentId (ro_date o) (ro_startTime o);
                 rr_status := "rescheduled";
                 previous_booking_id := ro_bookingId o |}
    else None.
Proof.
  intros Hi Ht.
  unfold Client.rescheduleAppointment, Routes.Reschedule.POST.
  cbn [Routes.Reschedule.booking_id Routes.Reschedule.date
       Routes.Reschedule.start_time].
  rewrite (truthy_nonEmpty _ Hi), (isValidTime_nonEmpty _ Ht).
  destruct (ro_date o) as [|c r] eqn:E; [reflexivity|]. cbn [nonEmpty].
  destruct (Routes.isValidDate rt (String c r)); [|reflexivity].
  cbn [negb]. now rewrite Ht.
Qed.

Lemma cancelAppointment_eq (o : CancelOptions) :
  Client.cancelAppointment o
  = if truthy (Some (co_bookingId o))
    then Some {| cr_booking_id := co_bookingId o; cr_status := "cancelled" |}
    else None.
Proof.
  unfold Client.cancelAppointment, Routes.Cancel.POST.
  cbn [Routes.Cancel.booking_id]. now destruct (co_bookingId o).
Qed.

End AgainstMock.

(** X14. The page's availability request to the mock route is answered
    with the whole generated day for the requested type exactly when the
    route accepts the date, and is rejected otherwise: the appointment
    type the page sends is never the reason for a rejection. *)
Theorem mock_availability_depends_on_date (rt : Routes.Runtime) (date : string)
        (ty : AppointmentTypeConfig) :
  (Routes.isValidDate rt date = true ->
   Client.fetchAvailability rt date ty
   = Some (Routes.Availability.generateSlots date (key ty))) /\
  (Routes.isValidDate rt date = false ->
   Client.fetchAvailability rt date ty = None) /\
  (forall k, Routes.parseKey (Routes.keyString k) = Some k) /\
  (forall s k, Routes.parseKey s = Some k -> s = Routes.keyString k).
Proof.
  rewrite fetchAvailability_eq.
  repeat split.
  - now intros ->.
  - now intros ->.
  - apply parseKey_keyString.
  - intros s k. unfold Routes.parseKey.
    destruct (String.eqb_spec s "consultation"); [intros [= <-]; assumption|].
    destruct (String.eqb_spec s "followup"); [intros [= <-]; assumption|].
    destruct (String.eqb_spec s "physical"); [intros [= <-]; assumption|].
    destruct (String.eqb_spec s "specialist"); [intros [= <-]; assumption|].
    discriminate.
Qed.


Lemma mock_availability_depends_on_date_witness :
  Client.fetchAvailability Samples.runtime0 "2024-13-45" Samples.physicalType
  = None.
Proof.
  apply (proj1 (proj2 (mock_availability_depends_on_date _ _ _))). reflexivity.
Defined.

(** X15. Against the mock routes a cancel call made by the page never
    fails, from any state: the page only sends a cancellation once it
    holds a non-empty booking id, which is all the route asks for.  The
    turn ends in cancelComplete with the booking id echoed. *)
Theorem mock_cancel_never_fails (rt : Routes.Runtime) (c : Component) (t : Turn)
        (o : CancelOptions) (res : option CancelResult) :
  Props.mockTurn rt t ->
  In (await (cancelCall o res)) (effectsOf c t) ->
  res = Some {| cr_booking_id := co_bookingId o; cr_status := "cancelled" |} /\
  step (state (submit c t)) = cancelComplete /\
  bookingId (state (submit c t)) = Some (co_bookingId o).
Proof.
  intros (code & clk & Hr) H. revert H. unfold submit, effectsOf. rewrite Hr.
  unfold handleSubmit, handleBookingFlow, handleRescheduleFlow, handleCancelFlow.
  cbn [clock fetchAvailability bookAppointment rescheduleAppointment
       cancelAppointment Client.mockRemote].
  intros H. break_tests; in_effects H; injection H as <- <-;
    match goal with
    | E : nonEmpty (bookingId ?s) = Some ?id,
      A : Client.cancelAppointment _ = _ |- _ =>
        apply nonEmpty_Some in E as [E E'];
        rewrite cancelAppointment_eq in A; cbn [co_bookingId] in A;
        rewrite E in E'; rewrite E' in A
    end;
    try discriminate;
    match goal with A : Some _ = Some _ |- _ => injection A as <- end;
    cbn; repeat split; reflexivity.
Qed.

Lemma mock_cancel_never_fails_witness :
  bookingId (state (submit Scenario.cancelAsked (Samples.asks "skip")))
  = Some "APPT-20240115-0900".
Proof.
  destruct (mock_cancel_never_fails Samples.runtime0 Scenario.cancelAsked
              (Samples.asks "skip")
              {| co_bookingId := "APPT-20240115-0900"; co_reason := None |}
              (Some {| cr_booking_id := "APPT-20240115-0900";
                       cr_status := "cancelled" |}))
    as (_ & _ & H).
  - exists "K3Q9ZD", Scenario.clock0. reflexivity.
  - vm_compute. tauto.
  - vm_compute in H |- *. exact H.
Defined.


Section MockConversation.

Variable rt : Routes.Runtime.

Lemma retained_subset (fetched : list AvailabilitySlot) (x : AvailabilitySlot) :
  In x (retained fetched) -> In x fetched.
Proof.
  unfold retained. intros Hx.
  apply In_nth_error in Hx as [n Hn].
  rewrite nth_error_firstn in Hn.
  destruct (Nat.ltb n 5); [|discriminate].
  apply nth_error_In in Hn. apply filter_In in Hn. tauto.
Qed.

Lemma generated_start_valid (date : string) (k : AppointmentTypeKey)
      (slot : AvailabilitySlot) :
  In slot (Routes.Availability.generateSlots date k) ->
  Routes.isValidTime (start_time slot) = true.
Proof.
  intros H. apply generateSlots_In in H as (i & Hi & ->).
  destruct (slotCount_fits k) as [Hfit Hpos].
  cbn [Routes.Availability.slotAt start_time].
  change (Routes.Availability.startHour * 60)%N with 540%N.
  apply formatTime_day. nia.
Qed.

Lemma bookable_initial : Props.bookable rt createInitialState.
Proof. split; [intros H; now elim H | constructor]. Qed.

Lemma mock_fetch_bookable (d : string) (ty : AppointmentTypeConfig)
      (fetched : list AvailabilitySlot) :
  Client.fetchAvailability rt d ty = Some fetched ->
  Routes.isValidDate rt d = true /\
  Forall (fun slot => Routes.isValidTime (start_time slot) = true)
         (retained fetched).
Proof.
  rewrite fetchAvailability_eq.
  destruct (Routes.isValidDate rt d); [|discriminate].
  intros [= <-]. split; [reflexivity|].
  apply Forall_forall. intros x Hx.
  eapply generated_start_valid, retained_subset, Hx.
Qed.

Lemma submit_bookable (c : Component) (t : Turn) :
  Props.mockTurn rt t ->
  Props.bookable rt (state c) -> Props.bookable rt (state (submit c t)).
Proof.
  intros (code & clk & Hr) Hc. unfold submit, effectsOf. rewrite Hr.
  unfold handleSubmit, handleBookingFlow, handleRescheduleFlow, handleCancelFlow.
  cbn [clock fetchAvailability bookAppointment rescheduleAppointment
       cancelAppointment Client.mockRemote].
  destruct c as [s busy msgs]. cbn [state isBusy messages] in *.
  destruct s as [i st ty d sl sel pn pe pp rs bid].
  unfold Props.bookable in *.
  cbn [intent step appointmentType date slots selectedSlot patientName
       patientEmail patientPhone reason bookingId set_intent set_step] in *.
  break_tests; cbn; try assumption;
    try (split; [intros X; now elim X | constructor]).
  all: try match goal with
    | F : Client.fetchAvailability rt ?d0 ?a = Some ?l,
      R : firstn 5 (filter available ?l) = _ |- _ =>
        destruct (mock_fetch_bookable _ _ _ F) as [V W];
        unfold retained in W; rewrite R in W;
        split; [intros _; eexists; split; [reflexivity | exact V] | exact W]
    end.
  all: destruct Hc as [Hd Hf]; split; [|exact Hf];
    intros Hne; destruct (Hd Hne) as (d0 & -> & Hv);
    destruct d0; [discriminate Hv | cbn in *; discriminate].
Qed.

Lemma mock_conversation_bookable (ts : list Turn) :
  Forall (Props.mockTurn rt) ts -> Props.bookable rt (state (conversation ts)).
Proof.
  unfold conversation. generalize bookable_initial.
  change createInitialState with (state initialComponent).
  generalize initialComponent.
  induction ts as [|t ts IH]; intros c Hc Hm; cbn [fold_left]; [assumption|].
  inversion Hm; subst. apply IH; [now apply submit_bookable | assumption].
Qed.

End MockConversation.


Section Calls.

Variable r : Remote.

(** What a book call of the booking handler is made of. *)
Lemma booking_call_from_state (s : ConversationState) (u : string)
      (o : BookOptions) (res : option BookResult) (c : Component) :
  In (await (bookCall o res)) (handleBookingFlow r s u) ->
  (appointmentType s = Some (bo_appointmentType o) /\
   date s = Some (bo_date o) /\ selectedSlot s = Some (bo_slot o) /\
   patientName s = Some (bo_name o) /\ patientEmail s = Some (bo_email o) /\
   patientPhone s = Some (bo_phone o) /\ bo_reason o = Some (trim u)) /\
  (truthy (Some (bo_date o)) = true /\ truthy (Some (bo_name o)) = true /\
   truthy (Some (bo_email o)) = true /\ truthy (Some (bo_phone o)) = true) /\
  res = bookAppointment r o /\
  (forall result, res = Some result ->
     step (state (applyEffects c (handleBookingFlow r s u))) = bookingComplete /\
     bookingId (state (applyEffects c (handleBookingFlow r s u)))
     = Some (booking_id result)).
Proof.
  unfold handleBookingFlow. intros H.
  destruct s as [i st ty d sl sel pn pe pp rs bid].
  break_tests; in_effects H; injection H as <- <-;
    repeat match goal with
      | E : nonEmpty _ = Some _ |- _ => apply nonEmpty_Some in E as [E ?]
      end;
    cbn in *; subst;
    repeat split; try reflexivity; try assumption; try congruence;
    try (intros ? [= <-]; reflexivity); try discriminate.
Qed.

Lemma reschedule_call_from_state (s : ConversationState) (u : string)
      (o : RescheduleOptions) (res : option RescheduleResult) (c : Component) :
  In (await (rescheduleCall o res)) (handleRescheduleFlow r s u) ->
  (bookingId s = Some (ro_bookingId o) /\ date s = Some (ro_date o) /\
   exists m, timeMatch u = Some m /\ ro_startTime o = padStart0 5 m) /\
  (truthy (Some (ro_bookingId o)) = true /\ truthy (Some (ro_date o)) = true) /\
  res = rescheduleAppointment r o /\
  (forall result, res = Some result ->
     step (state (applyEffects c (handleRescheduleFlow r s u))) = rescheduleComplete /\
     bookingId (state (applyEffects c (handleRescheduleFlow r s u)))
     = Some (rr_booking_id result)) /\
  (res = None ->
   state (applyEffects c (handleRescheduleFlow r s u)) = createInitialState).
Proof.
  unfold handleRescheduleFlow. intros H.
  destruct s as [i st ty d sl sel pn pe pp rs bid].
  break_tests; in_effects H; injection H as <- <-;
    repeat match goal with
      | E : nonEmpty _ = Some _ |- _ => apply nonEmpty_Some in E as [E ?]
      end;
    cbn in *; subst;
    repeat split; try reflexivity; try assumption; try congruence;
    try (eexists; split; reflexivity);
    try (intros ? [= <-]; reflexivity); try discriminate.
Qed.

End Calls.

Lemma submit_book_call (c : Component) (t : Turn)
      (o : BookOptions) (res : option BookResult) :
  In (await (bookCall o res)) (effectsOf c t) ->
  (appointmentType (state c) = Some (bo_appointmentType o) /\
   date (state c) = Some (bo_date o) /\
   selectedSlot (state c) = Some (bo_slot o) /\
   patientName (state c) = Some (bo_name o) /\
   patientEmail (state c) = Some (bo_email o) /\
   patientPhone (state c) = Some (bo_phone o) /\
   bo_reason o = Some (trim (input t))) /\
  (truthy (Some (bo_date o)) = true /\ truthy (Some (bo_name o)) = true /\
   truthy (Some (bo_email o)) = true /\ truthy (Some (bo_phone o)) = true) /\
  res = bookAppointment (remote t) o /\
  (forall result, res = Some result ->
     step (state (submit c t)) = bookingComplete /\
     bookingId (state (submit c t)) = Some (booking_id result)).
Proof.
  intros H.
  routed H;
    try solve [ apply reschedule_calls in H; contradiction
              | apply cancel_calls in H; contradiction ];
    match goal with
    | |- context [applyEffects ?c0 _] =>
        apply (booking_call_from_state _ _ _ _ _ c0) in H
          as ((A1 & A2 & A3 & A4 & A5 & A6 & A7) & (B1 & B2 & B3 & B4) & R & S)
    end;
    rewrite trim_idem in A7; auto 12.
Qed.

(** X16. A book request is only ever sent with all the answers in place:
    the appointment type, date, selected slot, name, email and phone it
    carries are those held in the state before the turn, none of the
    four texts is empty, and the reason is the trimmed text of the turn
    itself.  What comes back is what the backend answered to exactly
    that request. *)
Theorem book_call_carries_answers (c : Component) (t : Turn)
        (o : BookOptions) (res : option BookResult) :
  In (await (bookCall o res)) (effectsOf c t) ->
  (appointmentType (state c) = Some (bo_appointmentType o) /\
   date (state c) = Some (bo_date o) /\
   selectedSlot (state c) = Some (bo_slot o) /\
   patientName (state c) = Some (bo_name o) /\
   patientEmail (state c) = Some (bo_email o) /\
   patientPhone (state c) = Some (bo_phone o) /\
   bo_reason o = Some (trim (input t))) /\
  (bo_date o <> EmptyString /\ bo_name o <> EmptyString /\
   bo_email o <> EmptyString /\ bo_phone o <> EmptyString) /\
  res = bookAppointment (remote t) o.
Proof.
  intros H.
  assert (N : forall x, truthy (Some x) = true -> x <> EmptyString)
    by (intros x Hx ->; discriminate Hx).
  destruct (submit_book_call c t o res H) as (A & (B1 & B2 & B3 & B4) & R & _).
  auto 12.
Qed.

Lemma book_call_carries_answers_witness :
  bo_reason
    {| bo_appointmentType := Samples.physicalType; bo_date := "2024-01-15";
       bo_slot := Scenario.slot0900; bo_name := "Jane Doe";
       bo_email := "jane@example.com"; bo_phone := "555-0100";
       bo_reason := Some "annual checkup" |}
  = Some (trim (input (Scenario.says Scenario.backendUp "  annual checkup "))).
Proof.
  apply (book_call_carries_answers Scenario.bookingAsked
           (Scenario.says Scenario.backendUp "  annual checkup ")
           _ (Some Scenario.confirmed)).
  vm_compute. tauto.
Defined.

Lemma submit_reschedule_call (c : Component) (t : Turn)
      (o : RescheduleOptions) (res : option RescheduleResult) :
  In (await (rescheduleCall o res)) (effectsOf c t) ->
  (bookingId (state c) = Some (ro_bookingId o) /\
   date (state c) = Some (ro_date o) /\
   truthy (Some (ro_bookingId o)) = true /\ truthy (Some (ro_date o)) = true) /\
  (exists m, timeMatch (trim (input t)) = Some m /\
             ro_startTime o = padStart0 5 m) /\
  Routes.isValidTime (ro_startTime o) = true /\
  res = rescheduleAppointment (remote t) o /\
  (forall result, res = Some result ->
     step (state (submit c t)) = rescheduleComplete /\
     bookingId (state (submit c t)) = Some (rr_booking_id result)) /\
  (res = None -> state (submit c t) = createInitialState).
Proof.
  intros H.
  routed H;
    try solve [ apply booking_calls in H; contradiction
              | apply cancel_calls in H; contradiction ];
    match goal with
    | |- context [applyEffects ?c0 _] =>
        apply (reschedule_call_from_state _ _ _ _ _ c0) in H
          as ((A1 & A2 & m & A3 & A4) & (B1 & B2) & R & S & Z)
    end;
    repeat split; auto;
    first [ now exists m
          | rewrite A4; apply (timeMatch_valid_helper _ _ A3)
          | match goal with
            | E : res = Some ?x |- _ => destruct (S x E); assumption
            end ].
Qed.

(** X17. A reschedule request is only ever sent with a non-empty booking
    id and date, both taken from the state before the turn, and with a
    start time read from the turn itself and left-padded, which always
    has the form HH:mm.  If the call succeeds the turn ends in
    rescheduleComplete holding the returned booking id. *)
Theorem reschedule_call_carries_answers (c : Component) (t : Turn)
        (o : RescheduleOptions) (res : option RescheduleResult) :
  In (await (rescheduleCall o res)) (effectsOf c t) ->
  (bookingId (state c) = Some (ro_bookingId o) /\
   date (state c) = Some (ro_date o) /\
   ro_bookingId o <> EmptyString /\ ro_date o <> EmptyString) /\
  (exists m, timeMatch (trim (input t)) = Some m /\
             ro_startTime o = padStart0 5 m) /\
  Routes.isValidTime (ro_startTime o) = true /\
  res = rescheduleAppointment (remote t) o /\
  (forall result, res = Some result ->
     step (state (submit c t)) = rescheduleComplete /\
     bookingId (state (submit c t)) = Some (rr_booking_id result)).
Proof.
  intros H.
  assert (N : forall x, truthy (Some x) = true -> x <> EmptyString)
    by (intros x Hx ->; discriminate Hx).
  destruct (submit_reschedule_call c t o res H)
    as ((A1 & A2 & B1 & B2) & M & V & R & S & _).
  auto 12.
Qed.

Lemma reschedule_call_carries_answers_witness :
  Routes.isValidTime "07:05" = true.
Proof.
  apply (reschedule_call_carries_answers
           (conversation (firstn 3 (Scenario.rescheduleTurns Scenario.backendUp)))
           (Scenario.says Scenario.backendUp "7:05 would suit me")
           {| ro_bookingId := "APPT-20240115-0900"; ro_date := "2024-01-16";
              ro_startTime := "07:05" |}
           (Some {| rr_booking_id := "APPT-20240116-1030";
                    rr_status := "rescheduled";
                    previous_booking_id := "APPT-20240115-0900" |})).
  vm_compute. tauto.
Defined.


(** X18. Against the mock routes a reschedule call made by the page
    fails for one reason only, a date the route does not accept: the
    booking id it sends is never empty and the time always has the form
    HH:mm.  With an accepted date the turn ends in rescheduleComplete
    under the identifier built from the new date and time; otherwise the
    call is rejected and the conversation is reset. *)
Theorem mock_reschedule_fails_only_on_date (rt : Routes.Runtime) (c : Component)
        (t : Turn) (o : RescheduleOptions) (res : option RescheduleResult) :
  Props.mockTurn rt t ->
  In (await (rescheduleCall o res)) (effectsOf c t) ->
  (Routes.isValidDate rt (ro_date o) = true ->
   res = Some {| rr_booking_id := Routes.appointmentId (ro_date o) (ro_startTime o);
                 rr_status := "rescheduled";
                 previous_booking_id := ro_bookingId o |} /\
   step (state (submit c t)) = rescheduleComplete /\
   bookingId (state (submit c t))
   = Some (Routes.appointmentId (ro_date o) (ro_startTime o))) /\
  (Routes.isValidDate rt (ro_date o) = false ->
   res = None /\ state (submit c t) = createInitialState).
Proof.
  intros (code & clk & Hr) H.
  destruct (submit_reschedule_call c t o res H)
    as ((A1 & A2 & B1 & B2) & M & V & R & S & Z).
  rewrite Hr in R. cbn [rescheduleAppointment Client.mockRemote] in R.
  rewrite (rescheduleAppointment_eq rt o B1 V) in R.
  split; intros Hd; rewrite Hd in R.
  - split; [exact R|]. destruct (S _ R) as [S1 S2]. split; assumption.
  - split; [exact R | now apply Z].
Qed.

Lemma mock_reschedule_fails_only_on_date_witness :
  state (submit (conversation [Samples.asks "reschedule please";
                                Samples.asks "APPT-20240115-0900";
                                Samples.asks "2024-13-45"])
                (Samples.asks "10:30"))
  = createInitialState.
Proof.
  destruct (mock_reschedule_fails_only_on_date Samples.runtime0
              (conversation [Samples.asks "reschedule please";
                             Samples.asks "APPT-20240115-0900";
                             Samples.asks "2024-13-45"])
              (Samples.asks "10:30")
              {| ro_bookingId := "APPT-20240115-0900"; ro_date := "2024-13-45";
                 ro_startTime := "10:30" |}
              None) as [_ H].
  - exists "K3Q9ZD", Scenario.clock0. reflexivity.
  - vm_compute. tauto.
  - destruct H as [_ H]; [vm_compute; reflexivity|].
    vm_compute in H |- *. exact H.
Defined.

(** X19. In a conversation held entirely against the mock routes a book
    call never fails: the date it sends was accepted by the availability
    route, the slot it sends is one that route generated, and name,
    email and phone are non-empty, which is all the book route checks.
    The turn ends in bookingComplete under the identifier built from the
    date and the slot's start time. *)
Theorem mock_booking_never_fails (rt : Routes.Runtime) (ts : list Turn) (t : Turn)
        (o : BookOptions) (res : option BookResult) :
  Forall (Props.mockTurn rt) ts -> Props.mockTurn rt t ->
  In (await (bookCall o res)) (effectsOf (conversation ts) t) ->
  (exists randomCode,
     res = Some {| booking_id :=
                     Routes.appointmentId (bo_date o) (start_time (bo_slot o));
                   status := "confirmed";
                   confirmation_code := "CONF-" ++ randomCode |}) /\
  step (state (submit (conversation ts) t)) = bookingComplete /\
  bookingId (state (submit (conversation ts) t))
  = Some (Routes.appointmentId (bo_date o) (start_time (bo_slot o))).
Proof.
  intros Hts (code & clk & Hr) H.
  pose proof (mock_conversation_bookable rt ts Hts) as [Hd Hf].
  pose proof (conversation_invariant ts) as Hs.
  destruct (submit_book_call _ t o res H)
    as ((A1 & A2 & A3 & A4 & A5 & A6 & A7) & (B1 & B2 & B3 & B4) & R & S).
  destruct (Hs _ A3) as [Hin _].
  assert (Hne : slots (state (conversation ts)) <> [])
    by (intros E; rewrite E in Hin; destruct Hin).
  destruct (Hd Hne) as (d & Ed & Vd).
  rewrite A2 in Ed. injection Ed as <-.
  rewrite Forall_forall in Hf. specialize (Hf _ Hin).
  rewrite Hr in R. cbn [bookAppointment Client.mockRemote] in R.
  rewrite (bookAppointment_accepts rt code o Vd Hf B2 B3 B4) in R.
  split; [now exists code|]. destruct (S _ R) as [S1 S2]. split; assumption.
Qed.

Lemma mock_booking_never_fails_witness :
  step (state (conversation [Samples.asks "book a physical exam";
                              Samples.asks "2024-01-15"; Samples.asks "1";
                              Samples.asks "Jane Doe";
                              Samples.asks "jane@example.com";
                              Samples.asks "555-0100";
                              Samples.asks "annual checkup"]))
  = bookingComplete.
Proof.
  assert (M : forall text, Props.mockTurn Samples.runtime0 (Samples.asks text))
    by (intros text; exists "K3Q9ZD", Scenario.clock0; reflexivity).
  assert (I : In (await (bookCall
                 {| bo_appointmentType := Samples.physicalType;
                    bo_date := "2024-01-15";
                    bo_slot := {| start_time := "09:45"; end_time := "10:30";
                                  available := true |};
                    bo_name := "Jane Doe"; bo_email := "jane@example.com";
                    bo_phone := "555-0100"; bo_reason := Some "annual checkup" |}
                 (Some {| booking_id := "APPT-20240115-0945";
                          status := "confirmed";
                          confirmation_code := "CONF-K3Q9ZD" |})))
            (effectsOf (conversation [Samples.asks "book a physical exam";
                                      Samples.asks "2024-01-15"; Samples.asks "1";
                                      Samples.asks "Jane Doe";
                                      Samples.asks "jane@example.com";
                                      Samples.asks "555-0100"])
                       (Samples.asks "annual checkup")))
    by (vm_compute; tauto).
  pose proof (mock_booking_never_fails Samples.runtime0 _ _ _ _
                (Forall_cons _ (M _) (Forall_cons _ (M _) (Forall_cons _ (M _)
                 (Forall_cons _ (M _) (Forall_cons _ (M _) (Forall_cons _ (M _)
                 (Forall_nil _)))))))
                (M _) I) as (_ & H & _).
  vm_compute in H |- *. exact H.
Defined.


Section Guards.

Variable r : Remote.

Lemma booking_holdsId (s : ConversationState) (u : string) (c : Component) :
  Props.holdsId s = true -> Props.holdsId (state c) = true ->
  Props.holdsId (state (applyEffects c (handleBookingFlow r s u))) = true.
Proof.
  intros Hs Hc. unfold handleBookingFlow.
  destruct s as [i st ty d sl sel pn pe pp rs bid].
  break_tests; cbn; try assumption; reflexivity.
Qed.

Lemma reschedule_holdsId (s : ConversationState) (u : string) (c : Component) :
  Props.holdsId s = true -> Props.holdsId (state c) = true ->
  Props.holdsId (state (applyEffects c (handleRescheduleFlow r s u))) = true.
Proof.
  intros Hs Hc. unfold handleRescheduleFlow.
  destruct s as [i st ty d sl sel pn pe pp rs bid].
  break_tests; cbn; try assumption; try reflexivity;
    match goal with
    | E : nonEmpty _ = Some _ |- _ => apply nonEmpty_Some in E as [E E']
    end;
    cbn in *;
    repeat match goal with
      | E : Some _ = Some _ |- _ => injection E as <-
      end;
    try assumption;
    destruct st; cbn in *; rewrite ?andb_false_r in *;
    try discriminate; assumption.
Qed.

Lemma cancel_holdsId (s : ConversationState) (u : string) (c : Component) :
  Props.holdsId s = true -> Props.holdsId (state c) = true ->
  Props.holdsId (state (applyEffects c (handleCancelFlow r s u))) = true.
Proof.
  intros Hs Hc. unfold handleCancelFlow.
  destruct s as [i st ty d sl sel pn pe pp rs bid].
  break_tests; cbn; try assumption; try reflexivity;
    match goal with
    | E : nonEmpty _ = Some _ |- _ => apply nonEmpty_Some in E as [E E']
    end;
    cbn in *;
    repeat match goal with
      | E : Some _ = Some _ |- _ => injection E as <-
      end;
    try assumption;
    destruct st; cbn in *; rewrite ?andb_false_r in *;
    try discriminate; assumption.
Qed.

Lemma booking_never_says (s : ConversationState) (u : string) :
  ~ In (appendAgentMessage sayRescheduleMissingInfo) (handleBookingFlow r s u) /\
  ~ In (appendAgentMessage sayCancelMissingId) (handleBookingFlow r s u).
Proof.
  unfold handleBookingFlow. split; intros H; break_tests; in_effects H.
Qed.

Lemma reschedule_guard_silent (s : ConversationState) (u : string) :
  Props.holdsId s = true ->
  ~ In (appendAgentMessage sayRescheduleMissingInfo) (handleRescheduleFlow r s u) /\
  ~ In (appendAgentMessage sayCancelMissingId) (handleRescheduleFlow r s u).
Proof.
  intros Hs. unfold handleRescheduleFlow.
  destruct s as [i st ty d sl sel pn pe pp rs bid].
  split; intros H; break_tests; in_effects H;
    destruct st; try discriminate; cbn in *;
    destruct bid as [[|a b]|], d as [[|a' b']|]; discriminate.
Qed.

Lemma cancel_guard_silent (s : ConversationState) (u : string) :
  Props.holdsId s = true ->
  ~ In (appendAgentMessage sayRescheduleMissingInfo) (handleCancelFlow r s u) /\
  ~ In (appendAgentMessage sayCancelMissingId) (handleCancelFlow r s u).
Proof.
  intros Hs. unfold handleCancelFlow.
  destruct s as [i st ty d sl sel pn pe pp rs bid].
  split; intros H; break_tests; in_effects H;
    destruct st; try discriminate; cbn in *;
    destruct bid as [[|a b]|]; discriminate.
Qed.

End Guards.

Lemma submit_holdsId (c : Component) (t : Turn) :
  Props.holdsId (state c) = true -> Props.holdsId (state (submit c t)) = true.
Proof.
  intros Hc. unfold submit, effectsOf, handleSubmit.
  break_tests; repeat rewrite applyEffects_cons;
    first [ apply booking_holdsId | apply reschedule_holdsId
          | apply cancel_holdsId | idtac ];
    cbn; try assumption; reflexivity.
Qed.

Lemma conversation_holdsId (ts : list Turn) :
  Props.holdsId (state (conversation ts)) = true.
Proof.
  unfold conversation.
  assert (G : forall c, Props.holdsId (state c) = true ->
                        Props.holdsId (state (fold_left submit ts c)) = true).
  { induction ts as [|t ts IH]; intros c Hc; [exact Hc|].
    cbn [fold_left]. apply IH, submit_holdsId, Hc. }
  apply G. reflexivity.
Qed.

Lemma submit_guards_silent (c : Component) (t : Turn) :
  Props.holdsId (state c) = true ->
  ~ In (appendAgentMessage sayRescheduleMissingInfo) (effectsOf c t) /\
  ~ In (appendAgentMessage sayCancelMissingId) (effectsOf c t).
Proof.
  intros Hc. unfold effectsOf, handleSubmit.
  split; intros H; break_tests; cbn [In] in H;
    repeat match type of H with
      | _ \/ _ => destruct H as [H|H]; [discriminate H|]
      | False => contradiction
      end;
    first [ apply booking_never_says in H
          | apply (proj1 (reschedule_guard_silent _ _ _ Hc)) in H
          | apply (proj2 (reschedule_guard_silent _ _ _ Hc)) in H
          | apply (proj1 (cancel_guard_silent _ _ _ Hc)) in H
          | apply (proj2 (cancel_guard_silent _ _ _ Hc)) in H ];
    assumption.
Qed.

(** X20. The start-over guards of the reschedule and cancel flows are
    never taken in a conversation: whatever the turns and the backend,
    the agent never says that it is missing information to reschedule or
    the booking id to cancel.  The two flows ask for a date, a time or a
    reason only once a non-empty booking id is stored. *)
Theorem reschedule_cancel_guards_unreachable (ts : list Turn) (t : Turn) :
  ~ In (appendAgentMessage sayRescheduleMissingInfo)
       (effectsOf (conversation ts) t) /\
  ~ In (appendAgentMessage sayCancelMissingId)
       (effectsOf (conversation ts) t).
Proof.
  apply submit_guards_silent, conversation_holdsId.
Qed.


(** X21. What decides a book request of the page at the mock route: it is
    accepted exactly when the date is one the route accepts, the slot's
    start time has the form HH:mm, and name, email and phone are
    non-empty.  The appointment type never causes a rejection, since the
    page's four type keys are the route's.  An accepted request is
    confirmed under the identifier built from the date and the start
    time, with the code drawn for the request. *)
Theorem mock_book_accepts_iff (rt : Routes.Runtime) (randomCode : string)
        (o : BookOptions) :
  let acceptable :=
    Routes.isValidDate rt (bo_date o)
    && Routes.isValidTime (start_time (bo_slot o))
    && truthy (Some (bo_name o)) && truthy (Some (bo_email o))
    && truthy (Some (bo_phone o)) in
  (acceptable = true ->
   Client.bookAppointment rt randomCode o
   = Some {| booking_id :=
               Routes.appointmentId (bo_date o) (start_time (bo_slot o));
             status := "confirmed";
             confirmation_code := "CONF-" ++ randomCode |}) /\
  (acceptable = false -> Client.bookAppointment rt randomCode o = None).
Proof.
  cbv zeta. split; intros H.
  - apply andb_true_iff in H as [H Hp]. apply andb_true_iff in H as [H He].
    apply andb_true_iff in H as [H Hn]. apply andb_true_iff in H as [Hd Ht].
    now apply bookAppointment_accepts.
  - now apply bookAppointment_rejects.
Qed.

Lemma mock_book_accepts_iff_witness :
  Client.bookAppointment Samples.runtime0 "K3Q9ZD"
    {| bo_appointmentType := Samples.physicalType; bo_date := "2024-01-15";
       bo_slot := Scenario.slot0945; bo_name := "Jane Doe";
       bo_email := EmptyString; bo_phone := "555-0100"; bo_reason := None |}
  = None.
Proof.
  apply (proj2 (mock_book_accepts_iff Samples.runtime0 "K3Q9ZD" _)).
  vm_compute. reflexivity.
Defined.
